(** * asana-go: the lazy-expansion guard, the pagination walker and the
    story resource, embedded from [workspaces.go] and [stories.go].

    The Go package is a thin client: every method formats a path, calls the
    shared HTTP helper of the [Client] ([get], [post], [put], [delete]) and
    hands back what the helper decoded.  The helper, the [Client] struct and
    the types [Options], [NextPage], [Expandable] and [WithName] are declared
    in files of the package that are not part of the verified sources; they
    appear below as interfaces ([WorkspaceTransport], [StoryTransport]) and
    as records holding the fields the sources use.

    Conventions of the embedding:
    - a Go struct [S] is a record [S.t] in a module [S]; its fields keep
      their Go names;
    - a Go slice is [slice A]: Go tells the nil slice from an empty one;
    - a pointer to a resource that the JSON decoder owns is an [option];
    - methods of [*Client] run in a state monad over [World], the state of
      the transport together with a ghost record of every exchange;
    - [for] loops that depend on the remote side take a fuel argument. *)

From Stdlib Require Import ZArith DecimalString DecimalZ DecimalPos.
From stdpp Require Import base strings list gmap.

Set Warnings "-register-all".

Open Scope string_scope.
Open Scope Z_scope.
Open Scope list_scope.

(** ** Go slices and [fmt] verbs *)

Inductive slice (A : Type) : Type :=
| nil_slice
| mk_slice (elems : list A).
Arguments nil_slice {A}.
Arguments mk_slice {A} elems.

Definition elements {A} (s : slice A) : list A :=
  match s with
  | nil_slice => []
  | mk_slice l => l
  end.

Definition is_nil {A} (s : slice A) : bool :=
  match s with
  | nil_slice => true
  | mk_slice _ => false
  end.

(** [append(s, xs...)]: appending nothing to the nil slice gives it back;
    every other case yields a slice with a backing array. *)
Definition append {A} (s : slice A) (xs : slice A) : slice A :=
  match s, elements xs with
  | nil_slice, [] => nil_slice
  | _, l => mk_slice (elements s ++ l)
  end.

(** The verb [%d] on an [int64]. *)
Definition fmt_d (z : Z) : string := NilZero.string_of_int (Z.to_int z).

(** An argument handed to a logging call, kept unrendered. *)
Inductive fmtArg : Type :=
| ArgInt (z : Z)
| ArgString (s : string).

(** ** Request options and the page cursor *)

Module Options.
(** Modelled from the spec: the declaration of [Options] is missing from the
    sources.  The walker writes [Limit] and [Offset]; the spec adds a
    per-call field-selection list. *)
Record t : Type := mk {
  Limit : Z;
  Offset : string;
  Fields : list string;
}.
Definition zero : t := {| Limit := 0; Offset := ""; Fields := [] |}.
End Options.

Module NextPage.
(** Modelled from the spec: the declaration of [NextPage] is missing from the
    sources, which read its [Offset]. A nil [*NextPage] is [None]. *)
Record t : Type := mk {
  Offset : string;
}.
Definition zero : t := {| Offset := "" |}.
End NextPage.

(** Modelled from the spec: the merge of an option list is performed by the
    missing HTTP helper.  The spec (External interfaces) gives the rule:
    for every setting the first non-empty value of the list wins. *)
Definition mergeInto (dst src : Options.t) : Options.t :=
  {| Options.Limit :=
       if Z.eqb (Options.Limit dst) 0 then Options.Limit src else Options.Limit dst;
     Options.Offset :=
       if String.eqb (Options.Offset dst) "" then Options.Offset src
       else Options.Offset dst;
     Options.Fields :=
       match Options.Fields dst with
       | [] => Options.Fields src
       | fs => fs
       end |}.

Definition mergeOptions (opts : list Options.t) : Options.t :=
  fold_left mergeInto opts Options.zero.

(** ** Workspaces: the data of [workspaces.go] *)

Module Expandable.
(** Modelled from the spec: the declaration of the embedded [Expandable] is
    missing from the sources, which use [ID] (printed with [%d], built from an
    [int64]), the unexported flag [expanded] and the unexported back
    reference [client].  There is one client in the model, the [World] every
    method runs in, so the back reference is not stored. *)
Record t : Type := mk {
  ID : Z;
  expanded : bool;
}.
Definition zero : t := {| ID := 0; expanded := false |}.
(** Modelled from the spec: [init(id, clientRef)] sets the identifier and
    leaves the handle unexpanded. *)
Definition init (id : Z) (e : t) : t := {| ID := id; expanded := false |}.
End Expandable.

Module WithName.
(** Modelled from the spec: the embedded [WithName] is missing from the
    sources; it carries the name of the resource. *)
Record t : Type := mk {
  Name : string;
}.
Definition zero : t := {| Name := "" |}.
End WithName.

Module Workspace.
Record t : Type := mk {
  Expandable : Expandable.t;
  WithName : WithName.t;
  IsOrganization : bool;
  EmailDomains : slice string;
}.
Definition zero : t :=
  {| Expandable := Expandable.zero; WithName := WithName.zero;
     IsOrganization := false; EmailDomains := nil_slice |}.
Definition ID (w : t) : Z := Expandable.ID (Expandable w).
Definition expanded (w : t) : bool := Expandable.expanded (Expandable w).
Definition Name (w : t) : string := WithName.Name (WithName w).
End Workspace.

(** ** JSON values and the resources of [stories.go] *)

(** A JSON document as [encoding/json] sees it.  A number is kept as its
    literal; an object keeps the order of its members. *)
Inductive json : Type :=
| JNull
| JBool (b : bool)
| JNum (literal : string)
| JStr (s : string)
| JArr (items : list json)
| JObj (members : list (string * json)).

(** What decoding one value into a field reports: the new value, a type
    mismatch (the field is skipped, the error is remembered and decoding goes
    on), or the failure of a type's own decoder (decoding stops). *)
Inductive decoded (A : Type) : Type :=
| Decoded (a : A)
| Mismatch
| Failed.
Arguments Decoded {A} a.
Arguments Mismatch {A}.
Arguments Failed {A}.

(** The encoder and the decoder of a type declared elsewhere.  Encoding
    may fail; decoding starts from a fresh value. *)
Class JSONCodec (A : Type) : Type := {
  MarshalJSON : A -> option json;
  UnmarshalJSON : json -> decoded A;
}.

Module External.
(** The types that [stories.go] mentions and other files of the package (or
    the Go library) declare: resources held through pointers, each with its
    JSON codec; [float64] with its zero value, the emptiness test that
    [omitempty] applies to it and its number literals; the text that a string
    has once it went through a JSON document (invalid UTF-8 is replaced). *)
Class Resources : Type := {
  Date : Type;
  Time : Type;
  User : Type;
  Attachment : Type;
  Section_ : Type;
  Task : Type;
  Project : Type;
  Tag : Type;
  EnumValue : Type;
  Date_codec :: JSONCodec Date;
  Time_codec :: JSONCodec Time;
  User_codec :: JSONCodec User;
  Attachment_codec :: JSONCodec Attachment;
  Section_codec :: JSONCodec Section_;
  Task_codec :: JSONCodec Task;
  Project_codec :: JSONCodec Project;
  Tag_codec :: JSONCodec Tag;
  EnumValue_codec :: JSONCodec EnumValue;
  (* the fields of Task that stories.go reads *)
  Task_ID : Task -> string;
  Task_Name : Task -> string;
  float64 : Type;
  float64_zero : float64;
  float64_isEmpty : float64 -> bool;
  float64_isEmpty_zero : float64_isEmpty float64_zero = true;
  float64_format : float64 -> option string;
  float64_parse : string -> option float64;
  json_text : string -> string;
  (* the folding under which the decoder compares a key with a field name
     when no name is the key itself *)
  json_fold : string -> string;
}.
End External.
Abbreviation Resources := External.Resources.

#[global] Existing Instances
  External.Date_codec External.Time_codec External.User_codec
  External.Attachment_codec External.Section_codec External.Task_codec
  External.Project_codec External.Tag_codec External.EnumValue_codec.

Module StoryBase.
Record t : Type := mk {
  Text : string;
  HTMLText : string;
  IsPinned : bool;
}.
Definition zero : t := {| Text := ""; HTMLText := ""; IsPinned := false |}.
End StoryBase.

Module Dates.
Record t `{Resources} : Type := mk {
  DueOn : option External.Date;
  DueAt : option External.Time;
  StartOn : option External.Date;
}.
Definition zero `{Resources} : t :=
  {| DueOn := None; DueAt := None; StartOn := None |}.
End Dates.

Module StorySubtypeFields.
(** The recursion of the Go declaration ([Story] embeds the union, the union
    points to a [Story]) goes through the parameter [S]. *)
Record t `{Resources} {S : Type} : Type := mk {
  IsEdited : bool;
  NewDates : option Dates.t;
  OldDates : option Dates.t;
  OldName : string;
  NewName : string;
  OldResourceSubtype : string;
  NewResourceSubtype : string;
  Story : option S;
  Attachment : option External.Attachment;
  Assignee : option External.User;
  Follower : option External.User;
  OldSection : option External.Section_;
  NewSection : option External.Section_;
  Task : option External.Task;
  Project : option External.Project;
  Tag : option External.Tag;
  OldTextValue : string;
  NewTextValue : string;
  OldNumberValue : External.float64;
  NewNumberValue : External.float64;
  OldEnumValue : option External.EnumValue;
  NewEnumValue : option External.EnumValue;
  DuplicateOf : option External.Task;
  DuplicatedFrom : option External.Task;
  Dependency : option External.Task;
}.
Arguments t {_} S.
Definition zero `{Resources} {S : Type} : t S :=
  {| IsEdited := false; NewDates := None; OldDates := None;
     OldName := ""; NewName := "";
     OldResourceSubtype := ""; NewResourceSubtype := "";
     Story := None; Attachment := None; Assignee := None; Follower := None;
     OldSection := None; NewSection := None;
     Task := None; Project := None; Tag := None;
     OldTextValue := ""; NewTextValue := "";
     OldNumberValue := External.float64_zero;
     NewNumberValue := External.float64_zero;
     OldEnumValue := None; NewEnumValue := None;
     DuplicateOf := None; DuplicatedFrom := None; Dependency := None |}.
End StorySubtypeFields.

Module Story.
Inductive t `{Resources} : Type := mk {
  ID : string;
  StoryBase : StoryBase.t;
  CreatedAt : option External.Time;
  Liked : bool;
  Likes : slice (option External.User);
  NumLikes : Z;
  CreatedBy : option External.User;
  Target : option External.Task;
  Source : string;
  ResourceSubtype : string;
  StorySubtypeFields : StorySubtypeFields.t t;
}.
Definition zero `{Resources} : t :=
  {| ID := ""; StoryBase := StoryBase.zero; CreatedAt := None;
     Liked := false; Likes := nil_slice; NumLikes := 0;
     CreatedBy := None; Target := None; Source := ""; ResourceSubtype := "";
     StorySubtypeFields := StorySubtypeFields.zero |}.
End Story.

(** ** The client: transport, ghost record, state monad *)

Inductive Method : Type := GET | POST | PUT | DELETE.

Inductive Level : Type := Trace | Info.

(** One call of a logging method of the client ([trace], [info]). *)
Record LogCall : Type := mkLogCall {
  lc_level : Level;
  lc_format : string;
  lc_args : list fmtArg;
}.

Section World.
Context {T error : Type}.

(** One call of the HTTP helper, with what it answered. *)
Record Exchange : Type := mkExchange {
  x_method : Method;
  x_path : string;
  x_body : option StoryBase.t;
  x_opts : list Options.t;
  x_next : option NextPage.t;
  x_err : option error;
}.

(** The [Client] as a method sees it: the state of the transport behind it,
    and the history of its helper and logging calls (ghost state: no method
    reads it). *)
Record World : Type := mkWorld {
  transport : T;
  exchanges : list Exchange;
  log : list LogCall;
}.

Definition M (A : Type) : Type := World -> A * World.

Definition ret {A} (a : A) : M A := fun w => (a, w).

Definition bind {A B} (m : M A) (k : A -> M B) : M B :=
  fun w => let (a, w') := m w in k a w'.

Definition logCall (lvl : Level) (format : string) (args : list fmtArg) : M unit :=
  fun w => (tt, {| transport := transport w; exchanges := exchanges w;
                   log := log w ++ [mkLogCall lvl format args] |}).

Definition trace := logCall Trace.
Definition info := logCall Info.

(** Run a transport function on the transport state and record the call. *)
Definition exchange {A} (f : T -> A * T) (record : A -> Exchange) : M A :=
  fun w => let (a, t') := f (transport w) in
           (a, {| transport := t'; exchanges := exchanges w ++ [record a];
                  log := log w |}).

End World.
Arguments Exchange : clear implicits.
Arguments World : clear implicits.
Arguments M : clear implicits.

Declare Scope go_scope.
Delimit Scope go_scope with go.
Notation "'call' p := m ; k" := (bind m (fun p => k))
  (at level 10, p pattern, m at level 100, k at level 200) : go_scope.
Notation "m ;; k" := (bind m (fun _ => k))
  (at level 100, k at level 200, right associativity) : go_scope.

(** The helper [get] of the client at the two target types [workspaces.go]
    passes to it.  It decodes the response into its target with
    [encoding/json], which writes exported fields only: whatever it answers,
    the unexported [expanded] of a [*Workspace] target is as it was. *)
Class WorkspaceTransport (T error : Type) : Type := {
  get_Workspace :
    string -> Workspace.t -> list Options.t -> T ->
    (Workspace.t * option NextPage.t * option error) * T;
  get_Workspaces :
    string -> slice Workspace.t -> list Options.t -> T ->
    (slice Workspace.t * option NextPage.t * option error) * T;
  get_Workspace_unexported : forall path w opts t,
    Workspace.expanded (get_Workspace path w opts t).1.1.1 = Workspace.expanded w;
}.

(** The helpers [get], [post], [put] and [delete] at the target types
    [stories.go] passes to them. *)
Class StoryTransport (T error : Type) `{Resources} : Type := {
  get_Stories :
    string -> slice Story.t -> list Options.t -> T ->
    (slice Story.t * option NextPage.t * option error) * T;
  post_Story :
    string -> option StoryBase.t -> Story.t -> T -> (Story.t * option error) * T;
  put_Story :
    string -> option StoryBase.t -> Story.t -> T -> (Story.t * option error) * T;
  delete_path : string -> T -> option error * T;
}.

(** ** [workspaces.go] *)

Section Workspaces.
Context {T error : Type} `{!WorkspaceTransport T error}.
Local Open Scope go_scope.

(** [func (c *Client) Workspace(id int64) *Workspace] *)
Definition Workspace (id : Z) : Workspace.t :=
  let result := Workspace.zero in
  {| Workspace.Expandable := Expandable.init id (Workspace.Expandable result);
     Workspace.WithName := Workspace.WithName result;
     Workspace.IsOrganization := Workspace.IsOrganization result;
     Workspace.EmailDomains := Workspace.EmailDomains result |}.

(** [func (w *Workspace) Expand() error].  The receiver is updated in place:
    the result pairs the error with the receiver as the call leaves it. *)
Definition Expand (w : Workspace.t) : M T error (option error * Workspace.t) :=
  trace "Loading details for workspace %d\n" [ArgInt (Workspace.ID w)] ;;
  if Workspace.expanded w then ret (None, w)
  else
    let path := "/workspaces/" +:+ fmt_d (Workspace.ID w) in
    call (w', _, err) :=
      exchange (get_Workspace path w [])
        (fun r => mkExchange GET path None [] r.1.2 r.2);
    ret (err, w').

(** [func (c *Client) Workspaces(options ...*Options)] *)
Definition Workspaces (options : list Options.t)
  : M T error (slice Workspace.t * option NextPage.t * option error) :=
  trace "Listing workspaces...\n" [] ;;
  let result := nil_slice in
  exchange (get_Workspaces "/workspaces" result options)
    (fun r => mkExchange GET "/workspaces" None options r.1.2 r.2).

(** The page request of one iteration. *)
Definition pageOptions (nextPage : NextPage.t) : Options.t :=
  {| Options.Limit := 100;
     Options.Offset := NextPage.Offset nextPage;
     Options.Fields := [] |}.

(** The loop of [AllWorkspaces].  [None] as a result: the fuel ran out while
    the cursor was still there. *)
Fixpoint AllWorkspaces_loop (fuel : nat) (options : list Options.t)
    (allWorkspaces : slice Workspace.t) (nextPage : option NextPage.t)
  : M T error (option (slice Workspace.t * option error)) :=
  match nextPage with
  | None => ret (Some (allWorkspaces, None))
  | Some cursor =>
    match fuel with
    | O => ret None
    | S fuel' =>
      let page := pageOptions cursor in
      let allOptions := [page] ++ options in
      call (workspaces, nextPage', err) := Workspaces allOptions;
      match err with
      | Some e => ret (Some (nil_slice, Some e))
      | None =>
        AllWorkspaces_loop fuel' options (append allWorkspaces workspaces) nextPage'
      end
    end
  end.

(** [func (c *Client) AllWorkspaces(options ...*Options)] *)
Definition AllWorkspaces (fuel : nat) (options : list Options.t)
  : M T error (option (slice Workspace.t * option error)) :=
  let allWorkspaces := mk_slice [] in
  let nextPage := Some NextPage.zero in
  AllWorkspaces_loop fuel options allWorkspaces nextPage.

End Workspaces.

(** ** Specification vocabulary for the walker *)

Section WalkSpec.
Context {T error : Type} `{!WorkspaceTransport T error}.

(** [walk options t cursor pages outcome t']: asked page after page by a
    walk that stands at [cursor], the transport in state [t] answers the
    successive [pages], each but the last with a cursor, and then either ends
    the collection with a nil cursor ([outcome = None], the last of [pages]
    is that final page) or fails with [e] ([outcome = Some e]); it is left in
    state [t']. *)
Inductive walk (options : list Options.t)
  : T -> NextPage.t -> list (slice Workspace.t) -> option error -> T -> Prop :=
| walk_last t cursor items t' :
    get_Workspaces "/workspaces" nil_slice (pageOptions cursor :: options) t
    = ((items, None, None), t') ->
    walk options t cursor [items] None t'
| walk_fail t cursor items next e t' :
    get_Workspaces "/workspaces" nil_slice (pageOptions cursor :: options) t
    = ((items, next, Some e), t') ->
    walk options t cursor [] (Some e) t'
| walk_next t cursor items next t' pages outcome t'' :
    get_Workspaces "/workspaces" nil_slice (pageOptions cursor :: options) t
    = ((items, Some next, None), t') ->
    walk options t' next pages outcome t'' ->
    walk options t cursor (items :: pages) outcome t''.

(** The requests of a walk, as the ghost record shows them: each is a GET of
    the collection whose options are the page request of the current cursor
    put in front of the caller's options, and the cursor of a request is the
    one the previous answer carried. *)
Fixpoint chained (options : list Options.t) (cursor : NextPage.t)
    (xs : list (Exchange error)) : Prop :=
  match xs with
  | [] => True
  | x :: rest =>
    x_method x = GET /\ x_path x = "/workspaces" /\
    x_opts x = pageOptions cursor :: options /\
    match rest with
    | [] => True
    | _ :: _ =>
      exists next, x_next x = Some next /\ x_err x = None /\
                   chained options next rest
    end
  end.

(** The number of listing calls of a walk. *)
Definition calls (pages : list (slice Workspace.t)) (outcome : option error) : nat :=
  match outcome with
  | None => length pages
  | Some _ => S (length pages)
  end.

(** What the caller gets from a walk. *)
Definition yield (acc : slice Workspace.t) (pages : list (slice Workspace.t))
    (outcome : option error) : slice Workspace.t :=
  match outcome with
  | None => fold_left append pages acc
  | Some _ => nil_slice
  end.

(** The log call every [Workspaces] makes. *)
Definition listingCall : LogCall := mkLogCall Trace "Listing workspaces...\n" [].

(** The log call every [Expand] makes. *)
Definition loadingCall (w : Workspace.t) : LogCall :=
  mkLogCall Trace "Loading details for workspace %d\n" [ArgInt (Workspace.ID w)].

(** The options in front of the list of a request are the ones that count
    for its limit and its offset. *)
Definition walker_takes_precedence (x : Exchange error) : Prop :=
  exists page rest,
    x_opts x = page :: rest
    /\ Options.Limit (mergeOptions (x_opts x)) = Options.Limit page
    /\ Options.Offset (mergeOptions (x_opts x)) = Options.Offset page.

End WalkSpec.

(** ** [encoding/json] on the structs of [stories.go]

    Every field of [StoryBase], [Dates], [StorySubtypeFields] and [Story]
    carries a tag [json:"name,omitempty"]: the encoder leaves the member out
    when the field is empty (false, 0, the empty string, a nil pointer, a
    slice without elements) and the decoder assigns the members it finds,
    one after the other, to the fields they name.  Embedded structs are
    flattened into the object of the struct that embeds them. *)

Definition members : Type := list (string * json).

Inductive status : Type :=
| Fine
| Mismatched
| Aborted.

(** The error state of the decoder after one more value. *)
Definition worse (a b : status) : status :=
  match a, b with
  | Aborted, _ | _, Aborted => Aborted
  | Mismatched, _ | _, Mismatched => Mismatched
  | Fine, Fine => Fine
  end.

Inductive kind : Type :=
| KString | KBool | KInt32 | KFloat64
| KTime | KDate | KUser | KUsers | KAttachment | KSection | KTask
| KProject | KTag | KEnumValue | KDates | KStory.

Section Encoder.
Context `{Resources}.

Fixpoint collect (fields : list (option members)) : option members :=
  match fields with
  | [] => Some []
  | f :: rest =>
    match f, collect rest with
    | Some a, Some b => Some (a ++ b)
    | _, _ => None
    end
  end.

Definition object (fields : list (option members)) : option json :=
  match collect fields with
  | Some ms => Some (JObj ms)
  | None => None
  end.

Definition enc_bool (key : string) (b : bool) : option members :=
  Some (if b then [(key, JBool true)] else []).

Definition enc_string (key : string) (s : string) : option members :=
  Some (if String.eqb s "" then [] else [(key, JStr s)]).

Definition enc_int32 (key : string) (z : Z) : option members :=
  Some (if Z.eqb z 0 then [] else [(key, JNum (fmt_d z))]).

Definition enc_float64 (key : string) (f : External.float64) : option members :=
  if External.float64_isEmpty f then Some []
  else match External.float64_format f with
       | Some literal => Some [(key, JNum literal)]
       | None => None
       end.

Definition enc_ptr {A} (enc : A -> option json) (key : string) (p : option A)
  : option members :=
  match p with
  | None => Some []
  | Some a =>
    match enc a with
    | Some j => Some [(key, j)]
    | None => None
    end
  end.

Fixpoint enc_elements {A} (enc : A -> option json) (l : list (option A))
  : option (list json) :=
  match l with
  | [] => Some []
  | p :: rest =>
    match (match p with None => Some JNull | Some a => enc a end),
          enc_elements enc rest with
    | Some j, Some js => Some (j :: js)
    | _, _ => None
    end
  end.

Definition enc_slice {A} (enc : A -> option json) (key : string)
    (s : slice (option A)) : option members :=
  match elements s with
  | [] => Some []
  | l =>
    match enc_elements enc l with
    | Some js => Some [(key, JArr js)]
    | None => None
    end
  end.

Definition MarshalDates (d : Dates.t) : option json :=
  object [
    enc_ptr MarshalJSON "due_on" (Dates.DueOn d);
    enc_ptr MarshalJSON "due_at" (Dates.DueAt d);
    enc_ptr MarshalJSON "start_on" (Dates.StartOn d)
  ].

(** [json.Marshal] on a [Story]. *)
Fixpoint MarshalStory (s : Story.t) : option json :=
  let base := Story.StoryBase s in
  let sf := Story.StorySubtypeFields s in
  object [
    enc_string "gid" (Story.ID s);
    enc_string "text" (StoryBase.Text base);
    enc_string "html_text" (StoryBase.HTMLText base);
    enc_bool "is_pinned" (StoryBase.IsPinned base);
    enc_ptr MarshalJSON "created_at" (Story.CreatedAt s);
    enc_bool "liked" (Story.Liked s);
    enc_slice MarshalJSON "likes" (Story.Likes s);
    enc_int32 "num_likes" (Story.NumLikes s);
    enc_ptr MarshalJSON "created_by" (Story.CreatedBy s);
    enc_ptr MarshalJSON "target" (Story.Target s);
    enc_string "source" (Story.Source s);
    enc_string "resource_subtype" (Story.ResourceSubtype s);
    enc_bool "is_edited" (StorySubtypeFields.IsEdited sf);
    enc_ptr MarshalDates "new_dates" (StorySubtypeFields.NewDates sf);
    enc_ptr MarshalDates "old_dates" (StorySubtypeFields.OldDates sf);
    enc_string "old_name" (StorySubtypeFields.OldName sf);
    enc_string "new_name" (StorySubtypeFields.NewName sf);
    enc_string "old_resource_subtype" (StorySubtypeFields.OldResourceSubtype sf);
    enc_string "new_resource_subtype" (StorySubtypeFields.NewResourceSubtype sf);
    enc_ptr MarshalStory "story" (StorySubtypeFields.Story sf);
    enc_ptr MarshalJSON "attachment" (StorySubtypeFields.Attachment sf);
    enc_ptr MarshalJSON "assignee" (StorySubtypeFields.Assignee sf);
    enc_ptr MarshalJSON "follower" (StorySubtypeFields.Follower sf);
    enc_ptr MarshalJSON "old_section" (StorySubtypeFields.OldSection sf);
    enc_ptr MarshalJSON "new_section" (StorySubtypeFields.NewSection sf);
    enc_ptr MarshalJSON "task" (StorySubtypeFields.Task sf);
    enc_ptr MarshalJSON "project" (StorySubtypeFields.Project sf);
    enc_ptr MarshalJSON "tag" (StorySubtypeFields.Tag sf);
    enc_string "old_text_value" (StorySubtypeFields.OldTextValue sf);
    enc_string "new_text_value" (StorySubtypeFields.NewTextValue sf);
    enc_float64 "old_number_value" (StorySubtypeFields.OldNumberValue sf);
    enc_float64 "new_number_value" (StorySubtypeFields.NewNumberValue sf);
    enc_ptr MarshalJSON "old_enum_value" (StorySubtypeFields.OldEnumValue sf);
    enc_ptr MarshalJSON "new_enum_value" (StorySubtypeFields.NewEnumValue sf);
    enc_ptr MarshalJSON "duplicate_of" (StorySubtypeFields.DuplicateOf sf);
    enc_ptr MarshalJSON "duplicated_from" (StorySubtypeFields.DuplicatedFrom sf);
    enc_ptr MarshalJSON "dependency" (StorySubtypeFields.Dependency sf)
  ].

(** The document as the decoder reads it back from its text: the strings
    are the ones the text can carry. *)
Fixpoint wire (j : json) : json :=
  match j with
  | JStr s => JStr (External.json_text s)
  | JArr items => JArr (map wire items)
  | JObj ms => JObj (map (fun m => (m.1, wire m.2)) ms)
  | _ => j
  end.

End Encoder.

Section ObjectDecoder.
Context {S F : Type}.
Variable find : string -> option F.
Variable assign : F -> json -> S -> S * status.

(** The members of an object, one after the other: a key that names no
    field is skipped; a mismatch is remembered and decoding goes on; the
    failure of a decoder stops it, with the fields as they are by then. *)
Fixpoint decodeMembers (ms : members) (s : S) (st : status) : S * status :=
  match ms with
  | [] => (s, st)
  | m :: rest =>
    match find m.1 with
    | None => decodeMembers rest s st
    | Some f =>
      let r := assign f m.2 s in
      match r.2 with
      | Aborted => (r.1, Aborted)
      | st' => decodeMembers rest r.1 (worse st st')
      end
    end
  end.

End ObjectDecoder.

Section Decoder.
Context `{Resources}.

(** The field a key names: the one whose name is the key, or else the first
    one whose name is the key up to folding. *)
Definition findField {F} (schema : list (string * F)) (key : string)
  : option (string * F) :=
  match find (fun f => String.eqb f.1 key) schema with
  | Some f => Some f
  | None =>
    find (fun f => String.eqb (External.json_fold f.1) (External.json_fold key))
      schema
  end.

Definition parse_int32 (literal : string) : option Z :=
  match NilZero.int_of_string literal with
  | Some d =>
    let z := Z.of_int d in
    if (- 2147483648 <=? z) && (z <=? 2147483647) then Some z else None
  | None => None
  end.

(** The value a field holds after a JSON value was decoded into it. *)
Definition dec_string (v : json) (cur : string) : string :=
  match v with
  | JStr x => x
  | _ => cur
  end.

Definition dec_bool (v : json) (cur : bool) : bool :=
  match v with
  | JBool b => b
  | _ => cur
  end.

Definition dec_int32 (v : json) (cur : Z) : Z :=
  match v with
  | JNum literal => default cur (parse_int32 literal)
  | _ => cur
  end.

Definition dec_float64 (v : json) (cur : External.float64) : External.float64 :=
  match v with
  | JNum literal => default cur (External.float64_parse literal)
  | _ => cur
  end.

Definition dec_ptr {A} `{!JSONCodec A} (v : json) (cur : option A) : option A :=
  match v with
  | JNull => None
  | _ =>
    match UnmarshalJSON v with
    | Decoded a => Some a
    | _ => cur
    end
  end.

Definition dec_slice {A} `{!JSONCodec A} (v : json) (cur : slice (option A))
  : slice (option A) :=
  match v with
  | JNull => nil_slice
  | JArr items => mk_slice (map (fun item => dec_ptr item None) items)
  | _ => cur
  end.

(** A pointer to a struct of this file: a nil pointer gets a fresh struct,
    and the value is decoded into the struct the pointer leads to. *)
Definition dec_struct {A} (rec : json -> A -> A * status) (zero : A)
    (v : json) (cur : option A) : option A :=
  match v with
  | JNull => None
  | _ => Some (rec v (default zero cur)).1
  end.

(** What the decoder reports on a value for a field of a kind. *)
Definition check_ptr {A} `{!JSONCodec A} (v : json) : status :=
  match v with
  | JNull => Fine
  | _ =>
    match UnmarshalJSON (A := A) v with
    | Decoded _ => Fine
    | Mismatch => Mismatched
    | Failed => Aborted
    end
  end.

Fixpoint check_elements {A} `{!JSONCodec A} (items : list json) (st : status)
  : status :=
  match items with
  | [] => st
  | item :: rest =>
    match check_ptr (A := A) item with
    | Aborted => Aborted
    | st' => check_elements (A := A) rest (worse st st')
    end
  end.

Definition check (dates story : json -> status) (k : kind) (v : json) : status :=
  match k, v with
  | _, JNull => Fine
  | KString, JStr _ => Fine
  | KBool, JBool _ => Fine
  | KInt32, JNum literal =>
    match parse_int32 literal with Some _ => Fine | None => Mismatched end
  | KFloat64, JNum literal =>
    match External.float64_parse literal with
    | Some _ => Fine
    | None => Mismatched
    end
  | KTime, _ => check_ptr (A := External.Time) v
  | KDate, _ => check_ptr (A := External.Date) v
  | KUser, _ => check_ptr (A := External.User) v
  | KUsers, JArr items => check_elements (A := External.User) items Fine
  | KAttachment, _ => check_ptr (A := External.Attachment) v
  | KSection, _ => check_ptr (A := External.Section_) v
  | KTask, _ => check_ptr (A := External.Task) v
  | KProject, _ => check_ptr (A := External.Project) v
  | KTag, _ => check_ptr (A := External.Tag) v
  | KEnumValue, _ => check_ptr (A := External.EnumValue) v
  | KDates, _ => dates v
  | KStory, _ => story v
  | _, _ => Mismatched
  end.

(** [upd tag name v dec cur]: the field called [name] after the member
    [tag] with value [v] was assigned. *)
Definition upd {A} (tag name : string) (v : json) (dec : json -> A -> A)
    (cur : A) : A :=
  if String.eqb tag name then dec v cur else cur.

Definition schemaDates : list (string * kind) :=
  [("due_on", KDate); ("due_at", KTime); ("start_on", KDate)].

Definition storeDates (tag : string) (v : json) (d : Dates.t) : Dates.t :=
  {| Dates.DueOn := upd tag "due_on" v dec_ptr (Dates.DueOn d);
     Dates.DueAt := upd tag "due_at" v dec_ptr (Dates.DueAt d);
     Dates.StartOn := upd tag "start_on" v dec_ptr (Dates.StartOn d) |}.

Definition UnmarshalDates (j : json) (d : Dates.t) : Dates.t * status :=
  match j with
  | JNull => (d, Fine)
  | JObj ms =>
    decodeMembers (findField schemaDates)
      (fun f v d =>
         (storeDates f.1 v d, check (fun _ => Mismatched) (fun _ => Mismatched) f.2 v))
      ms d Fine
  | _ => (d, Mismatched)
  end.

(** The fields of [Story] in the order of the declaration, the embedded
    structs flattened. *)
Definition schemaStory : list (string * kind) :=
  [("gid", KString);
   ("text", KString); ("html_text", KString); ("is_pinned", KBool);
   ("created_at", KTime); ("liked", KBool); ("likes", KUsers);
   ("num_likes", KInt32); ("created_by", KUser); ("target", KTask);
   ("source", KString); ("resource_subtype", KString);
   ("is_edited", KBool); ("new_dates", KDates); ("old_dates", KDates);
   ("old_name", KString); ("new_name", KString);
   ("old_resource_subtype", KString); ("new_resource_subtype", KString);
   ("story", KStory); ("attachment", KAttachment);
   ("assignee", KUser); ("follower", KUser);
   ("old_section", KSection); ("new_section", KSection);
   ("task", KTask); ("project", KProject); ("tag", KTag);
   ("old_text_value", KString); ("new_text_value", KString);
   ("old_number_value", KFloat64); ("new_number_value", KFloat64);
   ("old_enum_value", KEnumValue); ("new_enum_value", KEnumValue);
   ("duplicate_of", KTask); ("duplicated_from", KTask);
   ("dependency", KTask)].

Definition storeStory (rec : json -> Story.t -> Story.t * status)
    (tag : string) (v : json) (s : Story.t) : Story.t :=
  let base := Story.StoryBase s in
  let sf := Story.StorySubtypeFields s in
  let dates := dec_struct UnmarshalDates Dates.zero in
  {| Story.ID := upd tag "gid" v dec_string (Story.ID s);
     Story.StoryBase :=
       {| StoryBase.Text := upd tag "text" v dec_string (StoryBase.Text base);
          StoryBase.HTMLText :=
            upd tag "html_text" v dec_string (StoryBase.HTMLText base);
          StoryBase.IsPinned :=
            upd tag "is_pinned" v dec_bool (StoryBase.IsPinned base) |};
     Story.CreatedAt := upd tag "created_at" v dec_ptr (Story.CreatedAt s);
     Story.Liked := upd tag "liked" v dec_bool (Story.Liked s);
     Story.Likes := upd tag "likes" v dec_slice (Story.Likes s);
     Story.NumLikes := upd tag "num_likes" v dec_int32 (Story.NumLikes s);
     Story.CreatedBy := upd tag "created_by" v dec_ptr (Story.CreatedBy s);
     Story.Target := upd tag "target" v dec_ptr (Story.Target s);
     Story.Source := upd tag "source" v dec_string (Story.Source s);
     Story.ResourceSubtype :=
       upd tag "resource_subtype" v dec_string (Story.ResourceSubtype s);
     Story.StorySubtypeFields :=
       {| StorySubtypeFields.IsEdited :=
            upd tag "is_edited" v dec_bool (StorySubtypeFields.IsEdited sf);
          StorySubtypeFields.NewDates :=
            upd tag "new_dates" v dates (StorySubtypeFields.NewDates sf);
          StorySubtypeFields.OldDates :=
            upd tag "old_dates" v dates (StorySubtypeFields.OldDates sf);
          StorySubtypeFields.OldName :=
            upd tag "old_name" v dec_string (StorySubtypeFields.OldName sf);
          StorySubtypeFields.NewName :=
            upd tag "new_name" v dec_string (StorySubtypeFields.NewName sf);
          StorySubtypeFields.OldResourceSubtype :=
            upd tag "old_resource_subtype" v dec_string
              (StorySubtypeFields.OldResourceSubtype sf);
          StorySubtypeFields.NewResourceSubtype :=
            upd tag "new_resource_subtype" v dec_string
              (StorySubtypeFields.NewResourceSubtype sf);
          StorySubtypeFields.Story :=
            upd tag "story" v (dec_struct rec Story.zero)
              (StorySubtypeFields.Story sf);
          StorySubtypeFields.Attachment :=
            upd tag "attachment" v dec_ptr (StorySubtypeFields.Attachment sf);
          StorySubtypeFields.Assignee :=
            upd tag "assignee" v dec_ptr (StorySubtypeFields.Assignee sf);
          StorySubtypeFields.Follower :=
            upd tag "follower" v dec_ptr (StorySubtypeFields.Follower sf);
          StorySubtypeFields.OldSection :=
            upd tag "old_section" v dec_ptr (StorySubtypeFields.OldSection sf);
          StorySubtypeFields.NewSection :=
            upd tag "new_section" v dec_ptr (StorySubtypeFields.NewSection sf);
          StorySubtypeFields.Task :=
            upd tag "task" v dec_ptr (StorySubtypeFields.Task sf);
          StorySubtypeFields.Project :=
            upd tag "project" v dec_ptr (StorySubtypeFields.Project sf);
          StorySubtypeFields.Tag :=
            upd tag "tag" v dec_ptr (StorySubtypeFields.Tag sf);
          StorySubtypeFields.OldTextValue :=
            upd tag "old_text_value" v dec_string
              (StorySubtypeFields.OldTextValue sf);
          StorySubtypeFields.NewTextValue :=
            upd tag "new_text_value" v dec_string
              (StorySubtypeFields.NewTextValue sf);
          StorySubtypeFields.OldNumberValue :=
            upd tag "old_number_value" v dec_float64
              (StorySubtypeFields.OldNumberValue sf);
          StorySubtypeFields.NewNumberValue :=
            upd tag "new_number_value" v dec_float64
              (StorySubtypeFields.NewNumberValue sf);
          StorySubtypeFields.OldEnumValue :=
            upd tag "old_enum_value" v dec_ptr
              (StorySubtypeFields.OldEnumValue sf);
          StorySubtypeFields.NewEnumValue :=
            upd tag "new_enum_value" v dec_ptr
              (StorySubtypeFields.NewEnumValue sf);
          StorySubtypeFields.DuplicateOf :=
            upd tag "duplicate_of" v dec_ptr (StorySubtypeFields.DuplicateOf sf);
          StorySubtypeFields.DuplicatedFrom :=
            upd tag "duplicated_from" v dec_ptr
              (StorySubtypeFields.DuplicatedFrom sf);
          StorySubtypeFields.Dependency :=
            upd tag "dependency" v dec_ptr (StorySubtypeFields.Dependency sf) |}
  |}.

(** [json.Unmarshal] into a [*Story]. *)
Fixpoint UnmarshalStory (j : json) (s : Story.t) {struct j} : Story.t * status :=
  match j with
  | JNull => (s, Fine)
  | JObj ms =>
    decodeMembers (findField schemaStory)
      (fun f v s =>
         (storeStory UnmarshalStory f.1 v s,
          check (fun v => (UnmarshalDates v Dates.zero).2)
                (fun v => (UnmarshalStory v Story.zero).2) f.2 v))
      ms s Fine
  | _ => (s, Mismatched)
  end.

(** Encoding a story and decoding the document into a fresh [Story]. *)
Definition roundTrip (s : Story.t) : option (Story.t * status) :=
  match MarshalStory s with
  | Some j => Some (UnmarshalStory (wire j) Story.zero)
  | None => None
  end.

End Decoder.

(** The union with the two names of a renaming and nothing else. *)
Definition namesOnly `{Resources} {S : Type} (old new : string)
  : StorySubtypeFields.t S :=
  {| StorySubtypeFields.IsEdited := false;
     StorySubtypeFields.NewDates := None;
     StorySubtypeFields.OldDates := None;
     StorySubtypeFields.OldName := old;
     StorySubtypeFields.NewName := new;
     StorySubtypeFields.OldResourceSubtype := "";
     StorySubtypeFields.NewResourceSubtype := "";
     StorySubtypeFields.Story := None;
     StorySubtypeFields.Attachment := None;
     StorySubtypeFields.Assignee := None;
     StorySubtypeFields.Follower := None;
     StorySubtypeFields.OldSection := None;
     StorySubtypeFields.NewSection := None;
     StorySubtypeFields.Task := None;
     StorySubtypeFields.Project := None;
     StorySubtypeFields.Tag := None;
     StorySubtypeFields.OldTextValue := "";
     StorySubtypeFields.NewTextValue := "";
     StorySubtypeFields.OldNumberValue := External.float64_zero;
     StorySubtypeFields.NewNumberValue := External.float64_zero;
     StorySubtypeFields.OldEnumValue := None;
     StorySubtypeFields.NewEnumValue := None;
     StorySubtypeFields.DuplicateOf := None;
     StorySubtypeFields.DuplicatedFrom := None;
     StorySubtypeFields.Dependency := None |}.

(** The tags of the fields of [Story] outside the union, and the tags of the
    two names. *)
Definition mainAndNames : list string :=
  ["gid"; "text"; "html_text"; "is_pinned"; "created_at"; "liked"; "likes";
   "num_likes"; "created_by"; "target"; "source"; "resource_subtype";
   "old_name"; "new_name"].

(** A name after the round trip: the empty name is left out of the
    document, any other comes back as its text. *)
Definition through `{Resources} (s : string) : string :=
  if String.eqb s "" then "" else External.json_text s.

(** A story with the two names and nothing else. *)
Definition renaming `{Resources} (old new : string) : Story.t :=
  {| Story.ID := ""; Story.StoryBase := StoryBase.zero; Story.CreatedAt := None;
     Story.Liked := false; Story.Likes := nil_slice; Story.NumLikes := 0;
     Story.CreatedBy := None; Story.Target := None; Story.Source := "";
     Story.ResourceSubtype := "";
     Story.StorySubtypeFields := namesOnly old new |}.

(** The members an encoder contributes carry its key. *)
Definition keyed (key : string) (ms : members) : Prop :=
  Forall (fun m => m.1 = key) ms.

(** ** [stories.go]

    The receivers and the results of the methods are pointers: tasks and
    stories live in a memory, at locations.  The body of a request is the
    [StoryBase] behind the pointer the caller passes ([None]: a nil
    pointer); the helper encodes it and does not write to it. *)

Definition loc : Type := positive.

Section Stories.
Context {T error : Type} `{Resources} `{!StoryTransport T error}.

Record Memory : Type := mkMemory {
  tasks : gmap loc External.Task;
  stories : gmap loc Story.t;
}.

Record State : Type := mkState {
  world : World T error;
  heap : Memory;
}.

(** A method returns, or panics on a nil or dangling receiver ([None]). *)
Definition G (A : Type) : Type := State -> option (A * State).

Definition gret {A} (a : A) : G A := fun st => Some (a, st).

Definition gbind {A B} (m : G A) (k : A -> G B) : G B :=
  fun st =>
    match m st with
    | Some (a, st') => k a st'
    | None => None
    end.

(** A method of the client, which does not touch the memory. *)
Definition lift {A} (m : M T error A) : G A :=
  fun st => let (a, w') := m (world st) in
            Some (a, {| world := w'; heap := heap st |}).

Definition load_task (t : loc) : G External.Task :=
  fun st =>
    match tasks (heap st) !! t with
    | Some task => Some (task, st)
    | None => None
    end.

Definition load_story (s : loc) : G Story.t :=
  fun st =>
    match stories (heap st) !! s with
    | Some story => Some (story, st)
    | None => None
    end.

(** [&Story{...}]: a location that holds no story yet. *)
Definition alloc_story (story : Story.t) : G loc :=
  fun st =>
    let l := fresh (dom (stories (heap st))) in
    Some (l, {| world := world st;
                heap := {| tasks := tasks (heap st);
                           stories := <[l := story]> (stories (heap st)) |} |}).

Definition write_story (l : loc) (story : Story.t) : G unit :=
  fun st =>
    Some (tt, {| world := world st;
                 heap := {| tasks := tasks (heap st);
                            stories := <[l := story]> (stories (heap st)) |} |}).

End Stories.
Arguments Memory {_}.
Arguments State T error {_}.
Arguments G T error {_} A.

Declare Scope heap_scope.
Delimit Scope heap_scope with heap.
Notation "'call' p := m ; k" := (gbind m (fun p => k))
  (at level 10, p pattern, m at level 100, k at level 200) : heap_scope.
Notation "m ;; k" := (gbind m (fun _ => k))
  (at level 100, k at level 200, right associativity) : heap_scope.

Section StoryMethods.
Context {T error : Type} `{Resources} `{!StoryTransport T error}.
Local Open Scope heap_scope.

(** The helpers [post] and [put] with a [*Story] target: what they decode
    is written to the story the target points to. *)
Definition post (path : string) (body : option StoryBase.t) (result : loc)
  : G T error (option error) :=
  call target := load_story result;
  call (decoded, err) :=
    lift (exchange (post_Story path body target)
            (fun r => mkExchange POST path body [] None r.2));
  write_story result decoded ;;
  gret err.

Definition put (path : string) (body : option StoryBase.t) (result : loc)
  : G T error (option error) :=
  call target := load_story result;
  call (decoded, err) :=
    lift (exchange (put_Story path body target)
            (fun r => mkExchange PUT path body [] None r.2));
  write_story result decoded ;;
  gret err.

Definition delete (path : string) : G T error (option error) :=
  lift (exchange (delete_path path)
          (fun r => mkExchange DELETE path None [] None r)).



(** [func (t *Task) CreateComment(client *Client, story *StoryBase)] *)
Definition CreateComment (t : loc) (story : option StoryBase.t)
  : G T error (loc * option error) :=
  call task := load_task t;
  lift (info "Creating comment for task %q" [ArgString (External.Task_Name task)]) ;;
  call result := alloc_story Story.zero;
  call err := post ("/tasks/" +:+ External.Task_ID task +:+ "/stories") story result;
  gret (result, err).

(** [func (s *Story) UpdateStory(client *Client, story *StoryBase)] *)
Definition UpdateStory (s : loc) (story : option StoryBase.t)
  : G T error (loc * option error) :=
  call this := load_story s;
  lift (info "Updating story %s" [ArgString (Story.ID this)]) ;;
  call result := alloc_story Story.zero;
  call err := put ("/stories/" +:+ Story.ID this) story result;
  gret (result, err).

(** [func (s *Story) Delete(client *Client) error] *)
Definition Delete (s : loc) : G T error (option error) :=
  call this := load_story s;
  lift (trace "Delete story %s %s"
          [ArgString (Story.ID this); ArgString (Story.ResourceSubtype this)]) ;;
  call err := delete ("/stories/" +:+ Story.ID this);
  gret err.

End StoryMethods.

(** ** What a story needs to come back from its document *)

(** The tags of every field of [Story] but [Likes]. *)
Definition tagsButLikes : list string :=
  ["gid"; "text"; "html_text"; "is_pinned"; "created_at"; "liked";
   "num_likes"; "created_by"; "target"; "source"; "resource_subtype";
   "is_edited"; "new_dates"; "old_dates"; "old_name"; "new_name";
   "old_resource_subtype"; "new_resource_subtype"; "story"; "attachment";
   "assignee"; "follower"; "old_section"; "new_section"; "task"; "project";
   "tag"; "old_text_value"; "new_text_value"; "old_number_value";
   "new_number_value"; "old_enum_value"; "new_enum_value"; "duplicate_of";
   "duplicated_from"; "dependency"].

Section Faithful.
Context `{Resources}.

(** The value behind a pointer to an external type comes back: whenever its
    encoder yields a document, that is not [null] and its decoder reads the
    value back from it. *)
Definition survives {A} `{!JSONCodec A} (p : option A) : Prop :=
  match p with
  | None => True
  | Some a =>
    forall j, MarshalJSON a = Some j ->
              j <> JNull /\ UnmarshalJSON (wire j) = Decoded a
  end.

(** A string is the text the document carries for it. *)
Definition plain (x : string) : Prop := through x = x.

(** A number that [omitempty] drops is the zero value, and a literal written
    for a number reads back as that number. *)
Definition exact (f : External.float64) : Prop :=
  (External.float64_isEmpty f = true -> f = External.float64_zero)
  /\ (forall literal, External.float64_format f = Some literal ->
                      External.float64_parse literal = Some f).

(** A slice without elements is dropped and comes back nil. *)
Definition listed {A} `{!JSONCodec A} (s : slice (option A)) : Prop :=
  s <> mk_slice [] /\ Forall survives (elements s).

Definition dated (p : option Dates.t) : Prop :=
  match p with
  | None => True
  | Some d =>
    survives (Dates.DueOn d) /\ survives (Dates.DueAt d)
    /\ survives (Dates.StartOn d)
  end.

Fixpoint faithful (s : Story.t) : Prop :=
  let base := Story.StoryBase s in
  let sf := Story.StorySubtypeFields s in
  plain (Story.ID s)
  /\ plain (StoryBase.Text base)
  /\ plain (StoryBase.HTMLText base)
  /\ survives (Story.CreatedAt s)
  /\ listed (Story.Likes s)
  /\ - 2147483648 <= Story.NumLikes s <= 2147483647
  /\ survives (Story.CreatedBy s)
  /\ survives (Story.Target s)
  /\ plain (Story.Source s)
  /\ plain (Story.ResourceSubtype s)
  /\ dated (StorySubtypeFields.NewDates sf)
  /\ dated (StorySubtypeFields.OldDates sf)
  /\ plain (StorySubtypeFields.OldName sf)
  /\ plain (StorySubtypeFields.NewName sf)
  /\ plain (StorySubtypeFields.OldResourceSubtype sf)
  /\ plain (StorySubtypeFields.NewResourceSubtype sf)
  /\ match StorySubtypeFields.Story sf with
     | Some liked => faithful liked
     | None => True
     end
  /\ survives (StorySubtypeFields.Attachment sf)
  /\ survives (StorySubtypeFields.Assignee sf)
  /\ survives (StorySubtypeFields.Follower sf)
  /\ survives (StorySubtypeFields.OldSection sf)
  /\ survives (StorySubtypeFields.NewSection sf)
  /\ survives (StorySubtypeFields.Task sf)
  /\ survives (StorySubtypeFields.Project sf)
  /\ survives (StorySubtypeFields.Tag sf)
  /\ plain (StorySubtypeFields.OldTextValue sf)
  /\ plain (StorySubtypeFields.NewTextValue sf)
  /\ exact (StorySubtypeFields.OldNumberValue sf)
  /\ exact (StorySubtypeFields.NewNumberValue sf)
  /\ survives (StorySubtypeFields.OldEnumValue sf)
  /\ survives (StorySubtypeFields.NewEnumValue sf)
  /\ survives (StorySubtypeFields.DuplicateOf sf)
  /\ survives (StorySubtypeFields.DuplicatedFrom sf)
  /\ survives (StorySubtypeFields.Dependency sf).

(** How deep the stories behind the [Story] pointer of the union nest. *)
Fixpoint depth (s : Story.t) : nat :=
  match StorySubtypeFields.Story (Story.StorySubtypeFields s) with
  | Some liked => S (depth liked)
  | None => O
  end.

(** One step of the decoder seen from one field: the member [m] is decoded
    into the field called [key], the other members leave it alone. *)
Definition fieldStep {A} (key : string) (dec : json -> A -> A)
    (acc : A) (m : string * json) : A :=
  upd m.1 key (wire m.2) dec acc.

(** The error report of [UnmarshalStory] on one value. *)
Definition checkStory (k : kind) (v : json) : status :=
  check (fun v => (UnmarshalDates v Dates.zero).2)
        (fun v => (UnmarshalStory v Story.zero).2) k v.

(** A member that names a field of [Story] by its own name and fits it. *)
Definition fits (m : string * json) : Prop :=
  exists k, findField schemaStory m.1 = Some (m.1, k)
            /\ checkStory k (wire m.2) = Fine.

End Faithful.

(** ** A scripted transport

    The transport of a test: it answers the calls it receives with the
    replies of a script, in order, whatever the request.  The resources
    declared outside the sources are small: a user, a tag and the like is a
    name, a task an identifier with a name, a number an integer. *)

Module Mock.

Definition name_codec : JSONCodec string :=
  {| MarshalJSON := fun s => Some (JStr s);
     UnmarshalJSON := fun j => match j with JStr s => Decoded s | _ => Mismatch end |}.

Record task : Type := mkTask {
  task_ID : string;
  task_Name : string;
}.

Definition task_codec : JSONCodec task :=
  {| MarshalJSON := fun t =>
       Some (JObj [("gid", JStr (task_ID t)); ("name", JStr (task_Name t))]);
     UnmarshalJSON := fun j =>
       match j with
       | JObj [("gid", JStr i); ("name", JStr n)] => Decoded (mkTask i n)
       | JObj _ => Failed
       | _ => Mismatch
       end |}.

#[global] Instance resources : Resources :=
  {| External.Date := string;
     External.Time := string;
     External.User := string;
     External.Attachment := string;
     External.Section_ := string;
     External.Task := task;
     External.Project := string;
     External.Tag := string;
     External.EnumValue := string;
     External.Date_codec := name_codec;
     External.Time_codec := name_codec;
     External.User_codec := name_codec;
     External.Attachment_codec := name_codec;
     External.Section_codec := name_codec;
     External.Task_codec := task_codec;
     External.Project_codec := name_codec;
     External.Tag_codec := name_codec;
     External.EnumValue_codec := name_codec;
     External.Task_ID := task_ID;
     External.Task_Name := task_Name;
     External.float64 := Z;
     External.float64_zero := 0;
     External.float64_isEmpty := fun z => Z.eqb z 0;
     External.float64_isEmpty_zero := eq_refl;
     External.float64_format := fun z => Some (fmt_d z);
     External.float64_parse := fun s => option_map Z.of_int (NilZero.int_of_string s);
     External.json_text := fun s => s;
     External.json_fold := fun s => s |}.

Inductive Reply : Type :=
| Page (items : slice Workspace.t) (next : option NextPage.t)
| Object (name : string) (isOrganization : bool)
| Document (story : Story.t)
| Done
| Failure (e : string).

Definition T : Type := list Reply.

Definition unexpected : string := "unexpected request".

Definition get_Workspaces (path : string) (target : slice Workspace.t)
    (opts : list Options.t) (t : T)
  : (slice Workspace.t * option NextPage.t * option string) * T :=
  match t with
  | Page items next :: t' => ((items, next, None), t')
  | Failure e :: t' => ((target, None, Some e), t')
  | _ => ((target, None, Some unexpected), t)
  end.

(** Decoding an object into a [*Workspace]: the exported fields present in
    the reply are overwritten. *)
Definition decode (name : string) (isOrganization : bool) (w : Workspace.t)
  : Workspace.t :=
  {| Workspace.Expandable := Workspace.Expandable w;
     Workspace.WithName := {| WithName.Name := name |};
     Workspace.IsOrganization := isOrganization;
     Workspace.EmailDomains := Workspace.EmailDomains w |}.

Definition get_Workspace (path : string) (w : Workspace.t)
    (opts : list Options.t) (t : T)
  : (Workspace.t * option NextPage.t * option string) * T :=
  match t with
  | Object name org :: t' => ((decode name org w, None, None), t')
  | Failure e :: t' => ((w, None, Some e), t')
  | _ => ((w, None, Some unexpected), t)
  end.

Definition get_Workspace_unexported (path : string) (w : Workspace.t)
    (opts : list Options.t) (t : T)
  : Workspace.expanded (get_Workspace path w opts t).1.1.1 = Workspace.expanded w :=
  match t with
  | [] => eq_refl
  | Page _ _ :: _ => eq_refl
  | Object _ _ :: _ => eq_refl
  | Document _ :: _ => eq_refl
  | Done :: _ => eq_refl
  | Failure _ :: _ => eq_refl
  end.

#[global] Instance workspace_transport : WorkspaceTransport T string :=
  Build_WorkspaceTransport T string
    get_Workspace get_Workspaces get_Workspace_unexported.

Definition get_Stories (path : string) (target : slice Story.t)
    (opts : list Options.t) (t : T)
  : (slice Story.t * option NextPage.t * option string) * T :=
  match t with
  | Failure e :: t' => ((target, None, Some e), t')
  | _ => ((target, None, Some unexpected), t)
  end.

(** The answer to a POST or a PUT is decoded into the target. *)
Definition send (path : string) (body : option StoryBase.t) (target : Story.t)
    (t : T) : (Story.t * option string) * T :=
  match t with
  | Document story :: t' => ((story, None), t')
  | Failure e :: t' => ((target, Some e), t')
  | _ => ((target, Some unexpected), t)
  end.

Definition delete_path (path : string) (t : T) : option string * T :=
  match t with
  | Done :: t' => (None, t')
  | Failure e :: t' => (Some e, t')
  | _ => (Some unexpected, t)
  end.

#[global] Instance story_transport : StoryTransport T string :=
  Build_StoryTransport T string resources get_Stories send send delete_path.

(** A client in front of a script, with an empty history. *)
Definition client (script : T) : World T string :=
  {| transport := script; exchanges := []; log := [] |}.

(** Sample data. *)
Definition named (id : Z) (name : string) : Workspace.t :=
  {| Workspace.Expandable := {| Expandable.ID := id; Expandable.expanded := false |};
     Workspace.WithName := {| WithName.Name := name |};
     Workspace.IsOrganization := false;
     Workspace.EmailDomains := nil_slice |}.

Definition acme : Workspace.t := named 11 "Acme".
Definition globex : Workspace.t := named 12 "Globex".
Definition initech : Workspace.t := named 13 "Initech".

Definition cursor (offset : string) : option NextPage.t :=
  Some {| NextPage.Offset := offset |}.

(** Three pages, the second one empty although it carries a cursor. *)
Definition three_pages : T :=
  [Page (mk_slice [acme; globex]) (cursor "p2");
   Page nil_slice (cursor "p3");
   Page (mk_slice [initech]) None].

(** Two pages, then a failure. *)
Definition failing_third : T :=
  [Page (mk_slice [acme]) (cursor "p2");
   Page (mk_slice [globex]) (cursor "p3");
   Failure "503"].

(** Pages without items. *)
Definition empty_pages : T :=
  [Page nil_slice (cursor "p2"); Page (mk_slice []) None].

(** Caller options that ask for their own page size and offset. *)
Definition caller : Options.t :=
  {| Options.Limit := 5; Options.Offset := "x"; Options.Fields := ["name"] |}.

(** Replies to two fetches of one workspace, and a failing fetch. *)
Definition two_objects : T := [Object "Acme" true; Object "Acme" true].
Definition timeout : T := [Failure "timeout"].

(** A renaming story as the server sends it, a comment, and a memory with
    one task and that story. *)
Definition renamed : Story.t :=
  {| Story.ID := "501"; Story.StoryBase := StoryBase.zero;
     Story.CreatedAt := Some "2024-01-02T03:04:05Z";
     Story.Liked := false; Story.Likes := nil_slice; Story.NumLikes := 0;
     Story.CreatedBy := Some "ada"; Story.Target := Some (mkTask "41" "Launch");
     Story.Source := "web"; Story.ResourceSubtype := "name_changed";
     Story.StorySubtypeFields := namesOnly "Draft" "Final" |}.

Definition renamed_document : json :=
  JObj [("gid", JStr "501"); ("created_at", JStr "2024-01-02T03:04:05Z");
        ("created_by", JStr "ada");
        ("target", JObj [("gid", JStr "41"); ("name", JStr "Launch")]);
        ("source", JStr "web"); ("resource_subtype", JStr "name_changed");
        ("old_name", JStr "Draft"); ("new_name", JStr "Final")].

Definition comment : StoryBase.t :=
  {| StoryBase.Text := "Looks good"; StoryBase.HTMLText := "";
     StoryBase.IsPinned := false |}.

Definition commented : Story.t :=
  {| Story.ID := "502"; Story.StoryBase := comment;
     Story.CreatedAt := None;
     Story.Liked := false; Story.Likes := nil_slice; Story.NumLikes := 0;
     Story.CreatedBy := Some "ada"; Story.Target := None;
     Story.Source := "api"; Story.ResourceSubtype := "comment_added";
     Story.StorySubtypeFields := StorySubtypeFields.zero |}.

Definition memory : Memory :=
  {| tasks := {[ 1%positive := mkTask "41" "Launch" ]};
     stories := {[ 1%positive := renamed ]} |}.

Definition state (script : T) : State T string :=
  {| world := client script; heap := memory |}.

Definition answers : T := [Document commented].

(** More sample data: a due date, a story about a liked comment that holds a
    story, likes and dates, and a comment whose slice of likes is empty but
    not nil. *)
Definition due : Dates.t :=
  {| Dates.DueOn := Some "2024-02-01"; Dates.DueAt := None;
     Dates.StartOn := Some "2024-01-15" |}.

Definition liking : Story.t :=
  {| Story.ID := "503"; Story.StoryBase := StoryBase.zero;
     Story.CreatedAt := Some "2024-01-03T00:00:00Z";
     Story.Liked := true; Story.Likes := mk_slice [Some "ada"; None];
     Story.NumLikes := 1;
     Story.CreatedBy := Some "bob"; Story.Target := Some (mkTask "41" "Launch");
     Story.Source := "web"; Story.ResourceSubtype := "comment_liked";
     Story.StorySubtypeFields :=
       {| StorySubtypeFields.IsEdited := false;
          StorySubtypeFields.NewDates := Some due;
          StorySubtypeFields.OldDates := None;
          StorySubtypeFields.OldName := "";
          StorySubtypeFields.NewName := "";
          StorySubtypeFields.OldResourceSubtype := "";
          StorySubtypeFields.NewResourceSubtype := "";
          StorySubtypeFields.Story := Some commented;
          StorySubtypeFields.Attachment := None;
          StorySubtypeFields.Assignee := Some "ada";
          StorySubtypeFields.Follower := None;
          StorySubtypeFields.OldSection := None;
          StorySubtypeFields.NewSection := None;
          StorySubtypeFields.Task := None;
          StorySubtypeFields.Project := None;
          StorySubtypeFields.Tag := None;
          StorySubtypeFields.OldTextValue := "";
          StorySubtypeFields.NewTextValue := "";
          StorySubtypeFields.OldNumberValue := 7;
          StorySubtypeFields.NewNumberValue := 0;
          StorySubtypeFields.OldEnumValue := None;
          StorySubtypeFields.NewEnumValue := None;
          StorySubtypeFields.DuplicateOf := None;
          StorySubtypeFields.DuplicatedFrom := None;
          StorySubtypeFields.Dependency := None |} |}.

Definition unliked : Story.t :=
  {| Story.ID := "504"; Story.StoryBase := comment;
     Story.CreatedAt := None;
     Story.Liked := false; Story.Likes := mk_slice []; Story.NumLikes := 0;
     Story.CreatedBy := None; Story.Target := None;
     Story.Source := "api"; Story.ResourceSubtype := "comment_added";
     Story.StorySubtypeFields := StorySubtypeFields.zero |}.

(** Scripts for two mutations in a row. *)
Definition create_then_update : T := [Document commented; Document commented].
Definition delete_twice : T := [Done; Failure "404"].

End Mock.

(** ** Two more transports *)

Module Endless.
(** A collection without end: page [n] holds one workspace and always
    carries a cursor to page [n + 1]. *)
Definition T : Type := nat.

Definition get_Workspaces (path : string) (target : slice Workspace.t)
    (opts : list Options.t) (n : T)
  : (slice Workspace.t * option NextPage.t * option string) * T :=
  ((mk_slice [Mock.named (Z.of_nat n) "w"],
    Some {| NextPage.Offset := fmt_d (Z.of_nat (S n)) |}, None), S n).

Definition get_Workspace (path : string) (w : Workspace.t)
    (opts : list Options.t) (n : T)
  : (Workspace.t * option NextPage.t * option string) * T :=
  ((w, None, None), n).

#[global] Instance workspace_transport : WorkspaceTransport T string :=
  Build_WorkspaceTransport T string
    get_Workspace get_Workspaces (fun _ _ _ _ => eq_refl).

Definition client : World T string :=
  {| transport := 0%nat; exchanges := []; log := [] |}.
End Endless.

Module Feed.
(** A transport that answers a listing of stories with the page it holds
    and refuses everything else. *)
Definition T : Type := slice Story.t.

Definition get_Stories (path : string) (target : slice Story.t)
    (opts : list Options.t) (t : T)
  : (slice Story.t * option NextPage.t * option string) * T :=
  ((t, None, None), t).

Definition refuse (path : string) (body : option StoryBase.t)
    (target : Story.t) (t : T) : (Story.t * option string) * T :=
  ((target, Some Mock.unexpected), t).

Definition delete_path (path : string) (t : T) : option string * T :=
  (Some Mock.unexpected, t).

#[global] Instance story_transport : StoryTransport T string :=
  Build_StoryTransport T string Mock.resources
    get_Stories refuse refuse delete_path.

Definition state (page : T) : State T string :=
  {| world := {| transport := page; exchanges := []; log := [] |};
     heap := Mock.memory |}.
End Feed.

(** * Properties *)

(** ** Slices *)

Lemma append_elements {A} (s xs : slice A) :
  elements (append s xs) = elements s ++ elements xs.
Proof.
  destruct s as [|l]; simpl.
  - unfold append; simpl. destruct (elements xs); reflexivity.
  - unfold append; simpl. destruct (elements xs); reflexivity.
Qed.

Lemma append_non_nil {A} (l : list A) (xs : slice A) :
  append (mk_slice l) xs = mk_slice (l ++ elements xs).
Proof. unfold append; simpl. destruct (elements xs); reflexivity. Qed.

Lemma append_nothing {A} (s xs : slice A) :
  elements xs = [] -> append s xs = s.
Proof.
  intros E. destruct s as [|l]; unfold append; rewrite E; simpl.
  - reflexivity.
  - by rewrite app_nil_r.
Qed.

Lemma fold_append_non_nil {A} (pages : list (slice A)) (l : list A) :
  fold_left append pages (mk_slice l)
  = mk_slice (l ++ concat (map elements pages)).
Proof.
  revert l. induction pages as [|p pages IH]; intros l;
    cbn [fold_left map concat].
  - by rewrite app_nil_r.
  - rewrite append_non_nil, IH. by rewrite <- app_assoc.
Qed.

(** ** The walker, step by step *)

Section WalkerFacts.
Context {T error : Type} `{!WorkspaceTransport T error}.

(** One listing call: the answer of the transport, one more exchange, one
    more log call. *)
Lemma Workspaces_run (options : list Options.t) (w : World T error) :
  Workspaces options w =
  let r := get_Workspaces "/workspaces" nil_slice options (transport w) in
  (r.1, {| transport := r.2;
           exchanges := exchanges w
                        ++ [mkExchange GET "/workspaces" None options r.1.1.2 r.1.2];
           log := log w ++ [listingCall] |}).
Proof.
  unfold Workspaces, bind, trace, logCall, exchange; simpl.
  destruct (get_Workspaces _ _ _ _) as [[[ws np] err] t']; reflexivity.
Qed.

Lemma loop_done fuel options acc (w : World T error) :
  AllWorkspaces_loop fuel options acc None w = (Some (acc, None), w).
Proof. destruct fuel; reflexivity. Qed.

Lemma loop_step fuel options acc cursor (w : World T error) :
  AllWorkspaces_loop (S fuel) options acc (Some cursor) w =
  let r := Workspaces (pageOptions cursor :: options) w in
  match r.1.2 with
  | Some e => (Some (nil_slice, Some e), r.2)
  | None => AllWorkspaces_loop fuel options (append acc r.1.1.1) r.1.1.2 r.2
  end.
Proof.
  simpl. unfold bind at 1.
  destruct (Workspaces _ w) as [[[ws np] err] w']; simpl.
  destruct err; reflexivity.
Qed.

Lemma loop_walk options t cursor pages outcome t' :
  walk options t cursor pages outcome t' ->
  forall fuel acc (w : World T error),
    transport w = t ->
    (calls pages outcome <= fuel)%nat ->
    exists xs,
      AllWorkspaces_loop fuel options acc (Some cursor) w
      = (Some (yield acc pages outcome, outcome),
         {| transport := t';
            exchanges := exchanges w ++ xs;
            log := log w ++ replicate (calls pages outcome) listingCall |})
      /\ length xs = calls pages outcome.
Proof.
  induction 1 as [t cursor items t' G | t cursor items next e t' G
                 | t cursor items next t' pages outcome t'' G W IH];
    intros fuel acc w Ht Hfuel.
  - destruct fuel as [|fuel]; [simpl in Hfuel; lia|].
    rewrite loop_step, Workspaces_run, Ht, G; simpl.
    rewrite loop_done. eexists; split; [reflexivity|reflexivity].
  - destruct fuel as [|fuel]; [simpl in Hfuel; lia|].
    rewrite loop_step, Workspaces_run, Ht, G; simpl.
    eexists; split; [reflexivity|reflexivity].
  - destruct fuel as [|fuel].
    { destruct outcome; simpl in Hfuel; lia. }
    rewrite loop_step, Workspaces_run, Ht, G; simpl.
    match goal with
    | |- context [AllWorkspaces_loop fuel options ?a (Some next) ?w'] =>
      destruct (IH fuel a w') as (xs & E & L);
        [reflexivity | destruct outcome; simpl in *; lia |]
    end.
    rewrite E; simpl.
    eexists (_ :: xs); split.
    + rewrite <- !app_assoc. destruct outcome; reflexivity.
    + destruct outcome; simpl in *; lia.
Qed.

End WalkerFacts.

(** ** The merge rule *)

Lemma merge_Limit (opts : list Options.t) (d : Options.t) :
  Options.Limit (fold_left mergeInto opts d)
  = if Z.eqb (Options.Limit d) 0 then Options.Limit (mergeOptions opts)
    else Options.Limit d.
Proof.
  unfold mergeOptions. revert d.
  induction opts as [|o opts IH]; intros d; cbn [fold_left].
  - simpl. destruct (Z.eqb_spec (Options.Limit d) 0) as [E|E];
      [exact E|reflexivity].
  - rewrite (IH (mergeInto d o)), (IH (mergeInto Options.zero o)).
    cbn [mergeInto Options.Limit Options.zero].
    change (0 =? 0) with true; cbv iota.
    destruct (Z.eqb (Options.Limit d) 0) eqn:E; [reflexivity|].
    by rewrite E.
Qed.

Lemma merge_Offset (opts : list Options.t) (d : Options.t) :
  Options.Offset (fold_left mergeInto opts d)
  = if String.eqb (Options.Offset d) "" then Options.Offset (mergeOptions opts)
    else Options.Offset d.
Proof.
  unfold mergeOptions. revert d.
  induction opts as [|o opts IH]; intros d; cbn [fold_left].
  - simpl. destruct (String.eqb_spec (Options.Offset d) "") as [E|E];
      [exact E|reflexivity].
  - rewrite (IH (mergeInto d o)), (IH (mergeInto Options.zero o)).
    cbn [mergeInto Options.Offset Options.zero].
    change (String.eqb "" "") with true; cbv iota.
    destruct (String.eqb (Options.Offset d) "") eqn:E; [reflexivity|].
    by rewrite E.
Qed.

Lemma merge_Fields (opts : list Options.t) (d : Options.t) :
  Options.Fields (fold_left mergeInto opts d)
  = match Options.Fields d with
    | [] => Options.Fields (mergeOptions opts)
    | fs => fs
    end.
Proof.
  unfold mergeOptions. revert d.
  induction opts as [|o opts IH]; intros d; cbn [fold_left].
  - destruct (Options.Fields d); reflexivity.
  - rewrite (IH (mergeInto d o)), (IH (mergeInto Options.zero o)).
    cbn [mergeInto Options.Fields Options.zero].
    destruct (Options.Fields d); reflexivity.
Qed.

(** The merged request of one iteration. *)
Lemma merge_page (cursor : NextPage.t) (options : list Options.t) :
  let merged := mergeOptions (pageOptions cursor :: options) in
  Options.Limit merged = 100 /\
  Options.Offset merged
  = (if String.eqb (NextPage.Offset cursor) ""
     then Options.Offset (mergeOptions options)
     else NextPage.Offset cursor) /\
  Options.Fields merged = Options.Fields (mergeOptions options).
Proof.
  unfold mergeOptions at 1 2 3; cbn [fold_left].
  rewrite merge_Limit, merge_Offset, merge_Fields. simpl. auto.
Qed.

(** ** The pagination walker *)

Section Walker.
Context {T error : Type} `{!WorkspaceTransport T error}.

(** More fuel does not change the result of a walk that came to an end. *)
Lemma loop_fuel_mono fuel options :
  forall acc nextPage (w : World T error) r w',
    AllWorkspaces_loop fuel options acc nextPage w = (Some r, w') ->
    forall fuel', (fuel <= fuel')%nat ->
      AllWorkspaces_loop fuel' options acc nextPage w = (Some r, w').
Proof.
  induction fuel as [|fuel IH]; intros acc [cursor|] w r w' E fuel' Hle.
  - discriminate E.
  - rewrite loop_done in E |- *. exact E.
  - destruct fuel' as [|fuel']; [lia|].
    rewrite loop_step in E |- *. cbv zeta in E |- *.
    destruct (Workspaces _ w) as [[[ws np] err] w1]; simpl in E |- *.
    destruct err; [exact E|].
    apply (IH _ _ _ _ _ E). lia.
  - rewrite loop_done in E |- *. exact E.
Qed.

(** Nil result and error go together, from any non-nil accumulator. *)
Lemma loop_nil_iff_error fuel options :
  forall acc nextPage (w : World T error) res err w',
    is_nil acc = false ->
    AllWorkspaces_loop fuel options acc nextPage w = (Some (res, err), w') ->
    is_nil res = bool_decide (err <> None).
Proof.
  induction fuel as [|fuel IH]; intros acc [cursor|] w res err w' Hacc E.
  - discriminate E.
  - rewrite loop_done in E. by simplify_eq.
  - rewrite loop_step in E. cbv zeta in E.
    destruct (Workspaces _ w) as [[[ws np] e] w1]; simpl in E.
    destruct e; [by simplify_eq|].
    apply (IH _ _ _ _ _ _) in E; [exact E|].
    destruct acc; [discriminate Hacc|]. by rewrite append_non_nil.
  - rewrite loop_done in E. by simplify_eq.
Qed.

(** C1. When the transport serves N pages and ends the collection with a
    nil cursor on the last one, [AllWorkspaces] comes to an end with any fuel
    of at least N, returns without error the non-nil slice made of the items
    of the pages, page after page, and has called [Workspaces] exactly N
    times: N exchanges and N listing log calls were added. *)
Theorem AllWorkspaces_concatenates options (w : World T error) pages t' fuel :
  walk options (transport w) NextPage.zero pages None t' ->
  (length pages <= fuel)%nat ->
  exists xs,
    AllWorkspaces fuel options w
    = (Some (mk_slice (concat (map elements pages)), None),
       {| transport := t';
          exchanges := exchanges w ++ xs;
          log := log w ++ replicate (length pages) listingCall |})
    /\ length xs = length pages.
Proof.
  intros W Hfuel. unfold AllWorkspaces.
  destruct (loop_walk _ _ _ _ _ _ W fuel (mk_slice []) w eq_refl Hfuel)
    as (xs & E & L).
  exists xs. split; [|exact L].
  rewrite E. simpl. by rewrite fold_append_non_nil.
Qed.

(** C2. When the transport serves k-1 pages and fails on request k with
    [e], [AllWorkspaces] returns [e] itself together with the nil slice: the
    items gathered from the first k-1 pages are not handed to the caller. *)
Theorem AllWorkspaces_error_discards options (w : World T error) pages e t' fuel :
  walk options (transport w) NextPage.zero pages (Some e) t' ->
  (length pages < fuel)%nat ->
  exists xs,
    AllWorkspaces fuel options w
    = (Some (nil_slice, Some e),
       {| transport := t';
          exchanges := exchanges w ++ xs;
          log := log w ++ replicate (S (length pages)) listingCall |})
    /\ length xs = S (length pages).
Proof.
  intros W Hfuel. unfold AllWorkspaces.
  destruct (loop_walk _ _ _ _ _ _ W fuel (mk_slice []) w eq_refl Hfuel)
    as (xs & E & L).
  exists xs. split; [exact E|exact L].
Qed.

End Walker.

Section WalkerIterations.
Context {T error : Type} `{!WorkspaceTransport T error}.

(** The exchanges of a walk are chained, whatever the fuel. *)
Lemma loop_chained fuel options :
  forall acc cursor (w : World T error),
  exists xs,
    exchanges (AllWorkspaces_loop fuel options acc (Some cursor) w).2
    = exchanges w ++ xs
    /\ chained options cursor xs.
Proof.
  induction fuel as [|fuel IH]; intros acc cursor w.
  - exists []. simpl. by rewrite app_nil_r.
  - rewrite loop_step, Workspaces_run. cbv zeta.
    destruct (get_Workspaces _ _ _ (transport w)) as [[[ws np] err] t1].
    cbn [fst snd].
    destruct err as [e|]; [|destruct np as [next|]].
    + eexists [_]. split; [reflexivity|]. simpl. auto.
    + match goal with
      | |- context [AllWorkspaces_loop fuel options ?a (Some next) ?w1] =>
        destruct (IH a next w1) as (xs & E & C)
      end.
      rewrite E. cbn [exchanges].
      eexists (_ :: xs). split; [by rewrite <- app_assoc|].
      cbn [chained x_method x_path x_opts x_next x_err].
      repeat split.
      destruct xs as [|x xs]; [exact I|].
      exists next. auto.
    + rewrite loop_done. eexists [_]. split; [reflexivity|]. simpl. auto.
Qed.

(** With fuel left, a walk that stands at a cursor makes a request. *)
Lemma loop_requests fuel options acc cursor (w : World T error) :
  exists x rest,
    exchanges (AllWorkspaces_loop (S fuel) options acc (Some cursor) w).2
    = exchanges w ++ x :: rest
    /\ chained options cursor (x :: rest).
Proof.
  destruct (loop_chained (S fuel) options acc cursor w) as (xs & E & C).
  destruct xs as [|x rest]; [exfalso|by exists x, rest].
  apply (f_equal length) in E. revert E.
  rewrite loop_step, Workspaces_run. cbv zeta.
  destruct (get_Workspaces _ _ _ (transport w)) as [[[ws np] err] t1].
  cbn [fst snd]. rewrite app_nil_r.
  destruct err as [e|]; [|destruct np as [next|]].
  - cbn [exchanges snd]. rewrite length_app. simpl. lia.
  - match goal with
    | |- context [AllWorkspaces_loop fuel options ?a (Some next) ?w1] =>
      destruct (loop_chained fuel options a next w1) as (ys & E2 & _)
    end.
    rewrite E2. cbn [exchanges snd]. rewrite !length_app. simpl. lia.
  - rewrite loop_done. cbn [exchanges snd]. rewrite length_app. simpl. lia.
Qed.

(** C5. A page without items whose cursor is not nil does not end the walk:
    the loop goes on from the cursor of that page with the accumulator as it
    was, and, given fuel for one more iteration, the next request is made
    with the offset of that cursor. *)
Theorem empty_page_continues fuel options acc cursor (w : World T error)
    items next t' :
  get_Workspaces "/workspaces" nil_slice (pageOptions cursor :: options)
    (transport w) = ((items, Some next, None), t') ->
  elements items = [] ->
  let w1 := (Workspaces (pageOptions cursor :: options) w).2 in
  AllWorkspaces_loop (S fuel) options acc (Some cursor) w
  = AllWorkspaces_loop fuel options acc (Some next) w1
  /\ exists x rest,
       exchanges (AllWorkspaces_loop (S (S fuel)) options acc (Some cursor) w).2
       = exchanges w1 ++ x :: rest
       /\ x_method x = GET /\ x_path x = "/workspaces"
       /\ exists page,
            x_opts x = page :: options
            /\ Options.Limit page = 100
            /\ Options.Offset page = NextPage.Offset next.
Proof.
  intros G Hempty w1.
  assert (Step : forall f,
    AllWorkspaces_loop (S f) options acc (Some cursor) w
    = AllWorkspaces_loop f options acc (Some next) w1).
  { intros f. rewrite loop_step. subst w1. rewrite Workspaces_run, G.
    cbn [fst snd]. by rewrite append_nothing. }
  split; [apply Step|].
  rewrite Step.
  destruct (loop_requests fuel options acc next w1) as (x & rest & E & C).
  exists x, rest. split; [exact E|].
  destruct C as (Hm & Hp & Ho & _).
  split; [exact Hm|]. split; [exact Hp|].
  exists (pageOptions next). auto.
Qed.

(** C9. Whenever [AllWorkspaces] returns, its slice is nil exactly when it
    returns an error; without error the slice is a non-nil one, and it is the
    empty slice when none of the pages the transport served had an item. *)
Theorem AllWorkspaces_nil_iff_error fuel options (w : World T error)
    res err w' :
  AllWorkspaces fuel options w = (Some (res, err), w') ->
  (is_nil res = true <-> err <> None)
  /\ (err = None -> exists l, res = mk_slice l)
  /\ (err = None ->
      forall pages t',
        walk options (transport w) NextPage.zero pages None t' ->
        Forall (fun p => elements p = []) pages ->
        res = mk_slice []).
Proof.
  intros E. unfold AllWorkspaces in E.
  pose proof (loop_nil_iff_error fuel options (mk_slice []) _ _ _ _ _
                eq_refl E) as N.
  split; [|split].
  - rewrite N. destruct err; simpl; split; congruence.
  - intros ->. simpl in N. destruct res as [|l]; [discriminate N|eauto].
  - intros -> pages t' W Hempty.
    destruct (loop_walk _ _ _ _ _ _ W (fuel `max` length pages)%nat
                (mk_slice []) w eq_refl) as (xs & E' & _);
      [simpl; lia|].
    rewrite (loop_fuel_mono _ _ _ _ _ _ _ E) in E' by lia.
    inversion E' as [[R]]. cbn [yield]. rewrite fold_append_non_nil.
    f_equal. clear -Hempty.
    induction Hempty as [|p pages Hp _ IH]; [reflexivity|].
    cbn [map concat]. by rewrite Hp, IH.
Qed.

(** C3 (amended). Whatever the fuel, the requests of [AllWorkspaces] are
    chained from the zero cursor: each carries the page request (limit 100,
    offset of the current cursor, empty on the first request) in front of
    the caller's options.  Under the first-non-empty-wins merge the limit of
    each request is 100, the field selection is the caller's, and the offset
    is the walker's when that is not empty and the caller's otherwise. *)
Theorem AllWorkspaces_page_requests fuel options (w : World T error) :
  exists xs,
    exchanges (AllWorkspaces fuel options w).2 = exchanges w ++ xs
    /\ chained options NextPage.zero xs
    /\ Forall (fun x =>
         exists page cursor,
           x_opts x = page :: options
           /\ Options.Limit page = 100
           /\ Options.Offset page = NextPage.Offset cursor
           /\ Options.Limit (mergeOptions (x_opts x)) = 100
           /\ Options.Fields (mergeOptions (x_opts x))
              = Options.Fields (mergeOptions options)
           /\ Options.Offset (mergeOptions (x_opts x))
              = if String.eqb (NextPage.Offset cursor) ""
                then Options.Offset (mergeOptions options)
                else NextPage.Offset cursor) xs.
Proof.
  unfold AllWorkspaces.
  destruct (loop_chained fuel options (mk_slice []) NextPage.zero w)
    as (xs & E & C).
  exists xs. split; [exact E|]. split; [exact C|].
  clear E. revert C. generalize NextPage.zero.
  induction xs as [|x xs IH]; intros cursor C; [constructor|].
  destruct C as (_ & _ & Ho & Rest).
  constructor.
  - exists (pageOptions cursor), cursor. rewrite Ho.
    destruct (merge_page cursor options) as (L & O & F).
    repeat split; assumption.
  - destruct xs as [|y ys]; [constructor|].
    destruct Rest as (next & _ & _ & C). exact (IH next C).
Qed.

End WalkerIterations.

(** ** The walker in front of the scripted transport *)

(** A script of pages is served page after page, whatever the requests. *)
Lemma script_serves options (ps : list (slice Workspace.t * NextPage.t))
    last rest :
  forall cursor,
    walk options
      (map (fun p => Mock.Page p.1 (Some p.2)) ps ++ Mock.Page last None :: rest)
      cursor (map fst ps ++ [last]) None rest.
Proof.
  induction ps as [|p ps IH]; intros cursor; simpl.
  - by apply walk_last.
  - eapply walk_next; [reflexivity|]. apply IH.
Qed.

(** A script of pages that ends on a failure fails after the pages. *)
Lemma script_fails options (ps : list (slice Workspace.t * NextPage.t))
    e rest :
  forall cursor,
    walk options
      (map (fun p => Mock.Page p.1 (Some p.2)) ps ++ Mock.Failure e :: rest)
      cursor (map fst ps) (Some e) rest.
Proof.
  induction ps as [|p ps IH]; intros cursor; simpl.
  - by eapply walk_fail.
  - eapply walk_next; [reflexivity|]. apply IH.
Qed.

Lemma AllWorkspaces_concatenates_witness :
  walk [] Mock.three_pages NextPage.zero
    [mk_slice [Mock.acme; Mock.globex]; nil_slice; mk_slice [Mock.initech]]
    None []
  /\ exists xs,
       AllWorkspaces 3 [] (Mock.client Mock.three_pages)
       = (Some (mk_slice [Mock.acme; Mock.globex; Mock.initech], None),
          {| transport := []; exchanges := xs;
             log := [listingCall; listingCall; listingCall] |})
       /\ length xs = 3%nat.
Proof.
  assert (W : walk [] Mock.three_pages NextPage.zero
                [mk_slice [Mock.acme; Mock.globex]; nil_slice;
                 mk_slice [Mock.initech]] None []).
  { eapply walk_next; [reflexivity|].
    eapply walk_next; [reflexivity|].
    apply walk_last. reflexivity. }
  split; [exact W|].
  exact (AllWorkspaces_concatenates [] (Mock.client Mock.three_pages)
           _ _ 3 W (le_n 3)).
Defined.

Lemma AllWorkspaces_error_discards_witness :
  walk [] Mock.failing_third NextPage.zero
    [mk_slice [Mock.acme]; mk_slice [Mock.globex]] (Some "503") []
  /\ exists xs,
       AllWorkspaces 5 [] (Mock.client Mock.failing_third)
       = (Some (nil_slice, Some "503"),
          {| transport := []; exchanges := xs;
             log := [listingCall; listingCall; listingCall] |})
       /\ length xs = 3%nat.
Proof.
  assert (W : walk [] Mock.failing_third NextPage.zero
                [mk_slice [Mock.acme]; mk_slice [Mock.globex]]
                (Some "503") []).
  { eapply walk_next; [reflexivity|].
    eapply walk_next; [reflexivity|].
    eapply walk_fail. reflexivity. }
  split; [exact W|].
  refine (AllWorkspaces_error_discards [] (Mock.client Mock.failing_third)
            _ _ _ 5 W _).
  simpl. lia.
Defined.

Lemma empty_page_continues_witness :
  let w := Mock.client Mock.empty_pages in
  let w1 := (Workspaces [pageOptions NextPage.zero] w).2 in
  AllWorkspaces_loop 1 [] (mk_slice []) (Some NextPage.zero) w
  = AllWorkspaces_loop 0 [] (mk_slice []) (Mock.cursor "p2") w1
  /\ exists x rest,
       exchanges (AllWorkspaces_loop 2 [] (mk_slice []) (Some NextPage.zero) w).2
       = exchanges w1 ++ x :: rest
       /\ x_method x = GET /\ x_path x = "/workspaces"
       /\ exists page,
            x_opts x = [page]
            /\ Options.Limit page = 100
            /\ Options.Offset page = "p2".
Proof.
  exact (empty_page_continues 0 [] (mk_slice []) NextPage.zero
           (Mock.client Mock.empty_pages) nil_slice
           {| NextPage.Offset := "p2" |} _ eq_refl eq_refl).
Defined.

Lemma AllWorkspaces_nil_iff_error_witness :
  let r := AllWorkspaces 2 [] (Mock.client Mock.empty_pages) in
  r.1 = Some (mk_slice [], None)
  /\ (is_nil (mk_slice (@nil Workspace.t)) = true <-> @None string <> None)
  /\ (@None string = None -> exists l, mk_slice (@nil Workspace.t) = mk_slice l)
  /\ (@None string = None ->
      forall pages t',
        walk [] Mock.empty_pages NextPage.zero pages None t' ->
        Forall (fun p => elements p = []) pages ->
        mk_slice (@nil Workspace.t) = mk_slice []).
Proof.
  split; [reflexivity|].
  exact (AllWorkspaces_nil_iff_error 2 [] (Mock.client Mock.empty_pages)
           (mk_slice []) None
           (AllWorkspaces 2 [] (Mock.client Mock.empty_pages)).2 eq_refl).
Defined.

(** C3, as stated, fails on the first request of a walk whose caller gives
    an offset: the page request in front has the empty offset, and the merge
    lets the first non-empty offset, the caller's, through. *)
Lemma walker_precedence_counterexample :
  ~ Forall walker_takes_precedence
      (exchanges (AllWorkspaces 1 [Mock.caller]
                    (Mock.client Mock.three_pages)).2).
Proof.
  intros F. apply Forall_inv in F.
  destruct F as (page & rest & E & _ & O).
  vm_compute in E. inversion E; subst page rest.
  vm_compute in O. discriminate O.
Qed.

(** ** The lazy-expansion guard *)

Section Expansion.
Context {T error : Type} `{!WorkspaceTransport T error}.

(** An expanded workspace: no request, no error, the receiver as it was. *)
Lemma Expand_expanded (w : Workspace.t) (c : World T error) :
  Workspace.expanded w = true ->
  Expand w c
  = ((None, w), {| transport := transport c; exchanges := exchanges c;
                   log := log c ++ [loadingCall w] |}).
Proof.
  intros E. unfold Expand, bind, trace, logCall; simpl. by rewrite E.
Qed.

(** A workspace that is not expanded: one GET of its path, decoded into the
    receiver; the error is the one of the transport. *)
Lemma Expand_unexpanded (w : Workspace.t) (c : World T error) :
  Workspace.expanded w = false ->
  let path := "/workspaces/" +:+ fmt_d (Workspace.ID w) in
  let r := get_Workspace path w [] (transport c) in
  Expand w c
  = ((r.1.2, r.1.1.1),
     {| transport := r.2;
        exchanges := exchanges c ++ [mkExchange GET path None [] r.1.1.2 r.1.2];
        log := log c ++ [loadingCall w] |}).
Proof.
  intros E. unfold Expand, bind, trace, logCall, exchange. rewrite E.
  cbn [transport exchanges log].
  destruct (get_Workspace _ w [] (transport c)) as [[[w' np] err] t'].
  reflexivity.
Qed.

(** [Expand] has no assignment to the flag, and the decoder cannot reach it. *)
Lemma Expand_keeps_flag (w : Workspace.t) (c : World T error) :
  Workspace.expanded (Expand w c).1.2 = Workspace.expanded w.
Proof.
  destruct (Workspace.expanded w) eqn:E.
  - by rewrite Expand_expanded.
  - rewrite Expand_unexpanded by exact E. cbn [fst snd].
    rewrite get_Workspace_unexported. exact E.
Qed.

(** On a workspace that is not expanded every call of [Expand] makes a
    request: the second call of two makes the second request. *)
Lemma Expand_again (w : Workspace.t) (c : World T error) :
  Workspace.expanded w = false ->
  let r1 := Expand w c in
  let r2 := Expand r1.1.2 r1.2 in
  exists x1 x2, exchanges r2.2 = exchanges c ++ [x1; x2]
                /\ x_method x1 = GET /\ x_method x2 = GET.
Proof.
  intros E r1 r2.
  assert (E1 : Workspace.expanded r1.1.2 = false).
  { subst r1. by rewrite Expand_keeps_flag. }
  subst r2. rewrite (Expand_unexpanded _ _ E1). cbn [snd exchanges].
  subst r1. rewrite (Expand_unexpanded _ _ E). cbn [snd exchanges].
  rewrite <- app_assoc. eauto.
Qed.

(** C6. On a workspace that is not expanded, when the GET of the transport
    fails with [e], [Expand] returns [e] itself, the flag of the receiver is
    still false, and the one failed GET is the only exchange made. *)
Theorem Expand_failure (w : Workspace.t) (c : World T error) w' next e t' :
  Workspace.expanded w = false ->
  get_Workspace ("/workspaces/" +:+ fmt_d (Workspace.ID w)) w [] (transport c)
  = ((w', next, Some e), t') ->
  Expand w c
  = ((Some e, w'),
     {| transport := t';
        exchanges := exchanges c
                     ++ [mkExchange GET ("/workspaces/" +:+ fmt_d (Workspace.ID w))
                           None [] next (Some e)];
        log := log c ++ [loadingCall w] |})
  /\ Workspace.expanded w' = false.
Proof.
  intros E G. split.
  - rewrite (Expand_unexpanded _ _ E). cbv zeta. by rewrite G.
  - pose proof (get_Workspace_unexported
                  ("/workspaces/" +:+ fmt_d (Workspace.ID w)) w [] (transport c))
      as U.
    rewrite G in U. cbn [fst] in U. by rewrite U.
Qed.

(** C7 (amended). [Expand] does not look at the identifier: on a handle that
    is not expanded and whose ID is the zero value it makes the GET of
    [/workspaces/0] like for any other, and what it returns is the answer of
    the transport, error included. *)
Theorem Expand_without_ID (w : Workspace.t) (c : World T error) :
  Workspace.ID w = 0 ->
  Workspace.expanded w = false ->
  let r := get_Workspace "/workspaces/0" w [] (transport c) in
  Expand w c
  = ((r.1.2, r.1.1.1),
     {| transport := r.2;
        exchanges := exchanges c
                     ++ [mkExchange GET "/workspaces/0" None [] r.1.1.2 r.1.2];
        log := log c ++ [loadingCall w] |}).
Proof.
  intros Z E. rewrite (Expand_unexpanded _ _ E). by rewrite Z.
Qed.

End Expansion.

(** C4 fails on the code: [Expand] never sets the flag it tests.  After a
    successful first call on a fresh handle the flag is still false, and the
    second call fetches the workspace again: two GETs for two calls. *)
Theorem Expand_twice_two_requests :
  let r1 := Expand (Workspace 7) (Mock.client Mock.two_objects) in
  let r2 := Expand r1.1.2 r1.2 in
  r1.1.1 = None
  /\ Workspace.Name r1.1.2 = "Acme"
  /\ Workspace.expanded r1.1.2 = false
  /\ r2.1.1 = None
  /\ map (fun x => (x_method x, x_path x)) (exchanges r2.2)
     = [(GET, "/workspaces/7"); (GET, "/workspaces/7")].
Proof. vm_compute. repeat split. Qed.

Lemma Expand_failure_witness :
  Workspace.expanded (Workspace 7) = false
  /\ get_Workspace "/workspaces/7" (Workspace 7) [] Mock.timeout
     = ((Workspace 7, None, Some "timeout"), [])
  /\ Expand (Workspace 7) (Mock.client Mock.timeout)
     = ((Some "timeout", Workspace 7),
        {| transport := [];
           exchanges := [mkExchange GET "/workspaces/7" None [] None
                           (Some "timeout")];
           log := [loadingCall (Workspace 7)] |})
  /\ Workspace.expanded (Workspace 7) = false.
Proof.
  split; [reflexivity|]. split; [reflexivity|].
  exact (Expand_failure (Workspace 7) (Mock.client Mock.timeout)
           (Workspace 7) None "timeout" [] eq_refl eq_refl).
Defined.

(** C7, as stated, fails: on a handle without ID in front of a transport
    that answers, [Expand] returns no error and has made a request. *)
Lemma Expand_without_ID_counterexample :
  ~ (exists e,
       (Expand (Workspace 0) (Mock.client Mock.two_objects)).1.1 = Some e
       /\ exchanges (Expand (Workspace 0) (Mock.client Mock.two_objects)).2
          = exchanges (Mock.client Mock.two_objects)).
Proof. intros (e & E & _). vm_compute in E. discriminate E. Qed.

Lemma Expand_without_ID_witness :
  Workspace.ID (Workspace 0) = 0
  /\ Workspace.expanded (Workspace 0) = false
  /\ Expand (Workspace 0) (Mock.client Mock.two_objects)
     = ((None, Mock.decode "Acme" true (Workspace 0)),
        {| transport := [Mock.Object "Acme" true];
           exchanges := [mkExchange GET "/workspaces/0" None [] None None];
           log := [loadingCall (Workspace 0)] |}).
Proof.
  split; [reflexivity|]. split; [reflexivity|].
  exact (Expand_without_ID (Workspace 0) (Mock.client Mock.two_objects)
           eq_refl eq_refl).
Defined.

(** ** The story union through JSON *)

Section RoundTrip.
Context `{Resources}.

Lemma enc_string_keyed key s a : enc_string key s = Some a -> keyed key a.
Proof.
  unfold enc_string. intros [= <-]. destruct (String.eqb s ""); repeat constructor.
Qed.

Lemma enc_bool_keyed key b a : enc_bool key b = Some a -> keyed key a.
Proof. unfold enc_bool. intros [= <-]. destruct b; repeat constructor. Qed.

Lemma enc_int32_keyed key z a : enc_int32 key z = Some a -> keyed key a.
Proof.
  unfold enc_int32. intros [= <-]. destruct (Z.eqb z 0); repeat constructor.
Qed.

Lemma enc_ptr_keyed {A} (enc : A -> option json) key p a :
  enc_ptr enc key p = Some a -> keyed key a.
Proof.
  unfold enc_ptr. destruct p as [x|]; [destruct (enc x)|]; intros [= <-];
    repeat constructor.
Qed.

Lemma enc_slice_keyed {A} (enc : A -> option json) key s a :
  enc_slice enc key s = Some a -> keyed key a.
Proof.
  unfold enc_slice. destruct (elements s); [|destruct (enc_elements _ _)];
    intros [= <-]; repeat constructor.
Qed.

Lemma collect_keys (P : string -> Prop) fields ms :
  collect fields = Some ms ->
  Forall (fun f => forall a, f = Some a -> Forall (fun m => P m.1) a) fields ->
  Forall (fun m => P m.1) ms.
Proof.
  revert ms. induction fields as [|f fields IH]; intros ms E F.
  - injection E as <-. constructor.
  - simpl in E. destruct f as [a|]; [|discriminate].
    destruct (collect fields) as [b|]; [|discriminate].
    injection E as <-. inversion F as [|? ? Fa Fb]; subst.
    apply Forall_app. split; [by apply Fa|by apply IH].
Qed.

Lemma MarshalStory_keys (s : Story.t) old new ms :
  Story.StorySubtypeFields s = namesOnly old new ->
  MarshalStory s = Some (JObj ms) ->
  Forall (fun m => In m.1 mainAndNames) ms.
Proof.
  intros Hsf E.
  destruct s as [id base created liked likes num by_ target source subtype sf].
  cbn [Story.StorySubtypeFields] in Hsf. subst sf.
  cbn [MarshalStory Story.StorySubtypeFields Story.StoryBase Story.ID
       Story.CreatedAt Story.Liked Story.Likes Story.NumLikes Story.CreatedBy
       Story.Target Story.Source Story.ResourceSubtype] in E.
  unfold namesOnly in E.
  cbn [StorySubtypeFields.IsEdited StorySubtypeFields.NewDates
       StorySubtypeFields.OldDates StorySubtypeFields.OldName
       StorySubtypeFields.NewName StorySubtypeFields.OldResourceSubtype
       StorySubtypeFields.NewResourceSubtype StorySubtypeFields.Story
       StorySubtypeFields.Attachment StorySubtypeFields.Assignee
       StorySubtypeFields.Follower StorySubtypeFields.OldSection
       StorySubtypeFields.NewSection StorySubtypeFields.Task
       StorySubtypeFields.Project StorySubtypeFields.Tag
       StorySubtypeFields.OldTextValue StorySubtypeFields.NewTextValue
       StorySubtypeFields.OldNumberValue StorySubtypeFields.NewNumberValue
       StorySubtypeFields.OldEnumValue StorySubtypeFields.NewEnumValue
       StorySubtypeFields.DuplicateOf StorySubtypeFields.DuplicatedFrom
       StorySubtypeFields.Dependency] in E.
  unfold enc_float64 in E. rewrite External.float64_isEmpty_zero in E.
  unfold object in E.
  match type of E with
  | match collect ?fs with _ => _ end = _ =>
    destruct (collect fs) as [ms'|] eqn:C; [|discriminate]
  end.
  injection E as ->.
  apply (collect_keys (fun k => In k mainAndNames) _ _ C).
  repeat apply List.Forall_cons; try apply List.Forall_nil; intros a Ea;
    first
      [ eapply Forall_impl;
        [ first [ eapply enc_string_keyed; exact Ea
                | eapply enc_bool_keyed; exact Ea
                | eapply enc_int32_keyed; exact Ea
                | eapply enc_ptr_keyed; exact Ea
                | eapply enc_slice_keyed; exact Ea ]
        | intros m ->; simpl; tauto ]
      | cbn in Ea; injection Ea as <-; apply List.Forall_nil ].
Qed.

Lemma decodeMembers_invariant {S F} (find : string -> option F)
    (assign : F -> json -> S -> S * status) (P : S -> Prop)
    (allowed : string -> Prop) :
  (forall key f v s, allowed key -> find key = Some f -> P s -> P (assign f v s).1) ->
  forall ms s st,
    Forall (fun m => allowed m.1) ms -> P s ->
    P (decodeMembers find assign ms s st).1.
Proof.
  intros Step. induction ms as [|m ms IH]; intros s st Hms Hs; [exact Hs|].
  inversion Hms as [|? ? Hm Hrest]; subst.
  cbn [decodeMembers].
  destruct (find m.1) as [f|] eqn:Ef; [|by apply IH].
  pose proof (Step _ _ m.2 _ Hm Ef Hs) as Hs'.
  cbv zeta. destruct (assign f m.2 s).2; [by apply IH|by apply IH|exact Hs'].
Qed.

Lemma wire_keys (P : string -> Prop) (ms : members) :
  Forall (fun m => P m.1) ms ->
  Forall (fun m => P m.1) (map (fun m => (m.1, wire m.2)) ms).
Proof. intros F. apply Forall_map. exact F. Qed.

Lemma storeStory_names rec key v (s : Story.t) :
  In key mainAndNames ->
  (exists old new, Story.StorySubtypeFields s = namesOnly old new) ->
  findField schemaStory key <> None /\
  forall f, findField schemaStory key = Some f ->
  exists old new,
    Story.StorySubtypeFields (storeStory rec f.1 v s) = namesOnly old new.
Proof.
  intros Hin (old & new & Hs).
  destruct s as [id base created liked likes num by_ target source subtype sf].
  cbn [Story.StorySubtypeFields] in Hs. subst sf.
  simpl in Hin.
  repeat (destruct Hin as [<-|Hin]); try contradiction;
    (split; [discriminate|]); intros f [= <-];
    unfold storeStory, namesOnly, upd; cbn; eauto.
Qed.

Lemma MarshalStory_object (s : Story.t) j :
  MarshalStory s = Some j -> exists ms, j = JObj ms.
Proof.
  destruct s. cbn [MarshalStory]. unfold object.
  destruct (collect _) as [ms|]; [|discriminate].
  intros [= <-]. by exists ms.
Qed.

(** C8. Take a story whose union holds the two names and nothing else,
    whatever its other fields.  When it is encoded, decoding the document
    into a fresh [Story] gives a union that again holds two names and
    nothing else: every other member of the union is at its zero value
    (false, the empty string, the zero number, a nil pointer). *)
Theorem Story_names_round_trip (s : Story.t) old new j :
  Story.StorySubtypeFields s = namesOnly old new ->
  MarshalStory s = Some j ->
  exists old' new',
    Story.StorySubtypeFields (UnmarshalStory (wire j) Story.zero).1
    = namesOnly old' new'.
Proof.
  intros Hs E.
  destruct (MarshalStory_object s j E) as (ms & ->).
  pose proof (MarshalStory_keys s old new ms Hs E) as K.
  cbn [wire UnmarshalStory].
  apply (decodeMembers_invariant _ _
           (fun s => exists old new, Story.StorySubtypeFields s = namesOnly old new)
           (fun key => In key mainAndNames)).
  - intros key f v s0 Hin Ef P.
    destruct (storeStory_names UnmarshalStory key v s0 Hin P) as (_ & Hstore).
    exact (Hstore f Ef).
  - apply (wire_keys (fun key => In key mainAndNames)). exact K.
  - by exists "", "".
Qed.

(** With nothing but the names in the whole story the encoder does not fail,
    the decoder reports no error and the story comes back, its names as the
    document carries them. *)
Lemma renaming_round_trip old new :
  roundTrip (renaming old new) = Some (renaming (through old) (through new), Fine).
Proof.
  unfold roundTrip, renaming, through.
  cbn [MarshalStory Story.StorySubtypeFields Story.StoryBase Story.ID
       Story.CreatedAt Story.Liked Story.Likes Story.NumLikes Story.CreatedBy
       Story.Target Story.Source Story.ResourceSubtype].
  unfold namesOnly at 1 2 3 4 5 6 7 8 9 10 11 12 13 14 15 16 17 18 19 20 21 22 23 24 25.
  cbn [StorySubtypeFields.IsEdited StorySubtypeFields.NewDates
       StorySubtypeFields.OldDates StorySubtypeFields.OldName
       StorySubtypeFields.NewName StorySubtypeFields.OldResourceSubtype
       StorySubtypeFields.NewResourceSubtype StorySubtypeFields.Story
       StorySubtypeFields.Attachment StorySubtypeFields.Assignee
       StorySubtypeFields.Follower StorySubtypeFields.OldSection
       StorySubtypeFields.NewSection StorySubtypeFields.Task
       StorySubtypeFields.Project StorySubtypeFields.Tag
       StorySubtypeFields.OldTextValue StorySubtypeFields.NewTextValue
       StorySubtypeFields.OldNumberValue StorySubtypeFields.NewNumberValue
       StorySubtypeFields.OldEnumValue StorySubtypeFields.NewEnumValue
       StorySubtypeFields.DuplicateOf StorySubtypeFields.DuplicatedFrom
       StorySubtypeFields.Dependency].
  unfold enc_float64. rewrite External.float64_isEmpty_zero.
  unfold enc_string.
  destruct (String.eqb old ""), (String.eqb new ""); reflexivity.
Qed.
End RoundTrip.

Lemma Story_names_round_trip_witness :
  Story.StorySubtypeFields Mock.renamed = namesOnly "Draft" "Final"
  /\ MarshalStory Mock.renamed = Some Mock.renamed_document
  /\ exists old' new',
       Story.StorySubtypeFields
         (UnmarshalStory (wire Mock.renamed_document) Story.zero).1
       = namesOnly old' new'.
Proof.
  split; [reflexivity|]. split; [reflexivity|].
  exact (Story_names_round_trip Mock.renamed "Draft" "Final"
           Mock.renamed_document eq_refl eq_refl).
Defined.

(** ** The story methods and the memory *)

Section StoryFrame.
Context {T error : Type} `{Resources} `{!StoryTransport T error}.

Lemma CreateComment_run (t : loc) body (st : State T error) task :
  tasks (heap st) !! t = Some task ->
  let r := fresh (dom (stories (heap st))) in
  let path := "/tasks/" +:+ External.Task_ID task +:+ "/stories" in
  let p := post_Story path body Story.zero (transport (world st)) in
  CreateComment t body st
  = Some ((r, p.1.2),
          {| world :=
               {| transport := p.2;
                  exchanges := exchanges (world st)
                               ++ [mkExchange POST path body [] None p.1.2];
                  log := log (world st)
                         ++ [mkLogCall Info "Creating comment for task %q"
                               [ArgString (External.Task_Name task)]] |};
             heap := {| tasks := tasks (heap st);
                        stories := <[r := p.1.1]> (stories (heap st)) |} |}).
Proof.
  intros Ht r path p.
  unfold CreateComment, post, gbind, load_task. rewrite Ht.
  unfold lift, info, logCall, alloc_story, load_story, write_story,
    exchange, gret.
  cbn [world heap tasks stories transport exchanges log].
  fold r. rewrite lookup_insert_eq.
  cbn [world heap tasks stories transport exchanges log].
  fold path. fold p. destruct p as [[decoded err] t'].
  cbn [fst snd world heap tasks stories transport exchanges log].
  by rewrite insert_insert_eq.
Qed.

Lemma UpdateStory_run (s : loc) body (st : State T error) this :
  stories (heap st) !! s = Some this ->
  let r := fresh (dom (stories (heap st))) in
  let path := "/stories/" +:+ Story.ID this in
  let p := put_Story path body Story.zero (transport (world st)) in
  UpdateStory s body st
  = Some ((r, p.1.2),
          {| world :=
               {| transport := p.2;
                  exchanges := exchanges (world st)
                               ++ [mkExchange PUT path body [] None p.1.2];
                  log := log (world st)
                         ++ [mkLogCall Info "Updating story %s"
                               [ArgString (Story.ID this)]] |};
             heap := {| tasks := tasks (heap st);
                        stories := <[r := p.1.1]> (stories (heap st)) |} |}).
Proof.
  intros Hs r path p.
  unfold UpdateStory, put, gbind, load_story at 1. rewrite Hs.
  unfold lift, info, logCall, alloc_story, load_story, write_story,
    exchange, gret.
  cbn [world heap tasks stories transport exchanges log].
  fold r. rewrite lookup_insert_eq.
  cbn [world heap tasks stories transport exchanges log].
  fold path. fold p. destruct p as [[decoded err] t'].
  cbn [fst snd world heap tasks stories transport exchanges log].
  by rewrite insert_insert_eq.
Qed.

Lemma Delete_run (s : loc) (st : State T error) this :
  stories (heap st) !! s = Some this ->
  let path := "/stories/" +:+ Story.ID this in
  let p := delete_path path (transport (world st)) in
  Delete s st
  = Some (p.1,
          {| world :=
               {| transport := p.2;
                  exchanges := exchanges (world st)
                               ++ [mkExchange DELETE path None [] None p.1];
                  log := log (world st)
                         ++ [mkLogCall Trace "Delete story %s %s"
                               [ArgString (Story.ID this);
                                ArgString (Story.ResourceSubtype this)]] |};
             heap := heap st |}).
Proof.
  intros Hs path p.
  unfold Delete, delete, gbind, load_story. rewrite Hs.
  unfold lift, trace, logCall, exchange, gret.
  cbn [world heap tasks stories transport exchanges log].
  fold path. fold p. destruct p as [err t']. reflexivity.
Qed.

Lemma fresh_story (st : State T error) :
  stories (heap st) !! fresh (dom (stories (heap st))) = None.
Proof. apply not_elem_of_dom. apply is_fresh. Qed.

(** C10. On a task [t] and a story [s] of the memory: [CreateComment] and
    [UpdateStory] return a location that held no story before, write what the
    transport decoded from the zero story there and nowhere else, so the
    task, the receiver [s] and every other story are as they were; [Delete]
    leaves the whole memory as it was. *)
Theorem story_mutations_frame (st : State T error) (t s : loc) body task this :
  tasks (heap st) !! t = Some task ->
  stories (heap st) !! s = Some this ->
  (exists r err st',
     CreateComment t body st = Some ((r, err), st')
     /\ tasks (heap st') = tasks (heap st)
     /\ stories (heap st) !! r = None
     /\ (forall l, l <> r -> stories (heap st') !! l = stories (heap st) !! l)
     /\ stories (heap st') !! r
        = Some (post_Story ("/tasks/" +:+ External.Task_ID task +:+ "/stories")
                  body Story.zero (transport (world st))).1.1)
  /\ (exists r err st',
        UpdateStory s body st = Some ((r, err), st')
        /\ tasks (heap st') = tasks (heap st)
        /\ stories (heap st) !! r = None
        /\ stories (heap st') !! s = Some this
        /\ (forall l, l <> r -> stories (heap st') !! l = stories (heap st) !! l)
        /\ stories (heap st') !! r
           = Some (put_Story ("/stories/" +:+ Story.ID this)
                     body Story.zero (transport (world st))).1.1)
  /\ (exists err st', Delete s st = Some (err, st') /\ heap st' = heap st).
Proof.
  intros Ht Hs. split; [|split].
  - rewrite (CreateComment_run _ _ _ _ Ht). cbv zeta.
    eexists _, _, _. split; [reflexivity|]. cbn [heap tasks stories].
    split; [reflexivity|]. split; [apply fresh_story|]. split.
    + intros l Hl. by rewrite lookup_insert_ne.
    + by rewrite lookup_insert_eq.
  - rewrite (UpdateStory_run _ _ _ _ Hs). cbv zeta.
    eexists _, _, _. split; [reflexivity|]. cbn [heap tasks stories].
    split; [reflexivity|]. split; [apply fresh_story|]. split; [|split].
    + rewrite lookup_insert_ne; [exact Hs|].
      intros E. pose proof (fresh_story st) as F. rewrite E in F. congruence.
    + intros l Hl. by rewrite lookup_insert_ne.
    + by rewrite lookup_insert_eq.
  - rewrite (Delete_run _ _ _ Hs). cbv zeta. eauto.
Qed.

End StoryFrame.

Lemma story_mutations_frame_witness :
  let st := Mock.state Mock.answers in
  tasks (heap st) !! 1%positive = Some (Mock.mkTask "41" "Launch")
  /\ stories (heap st) !! 1%positive = Some Mock.renamed
  /\ (exists r err st',
        CreateComment 1%positive (Some Mock.comment) st = Some ((r, err), st')
        /\ tasks (heap st') = tasks (heap st)
        /\ stories (heap st) !! r = None
        /\ (forall l, l <> r -> stories (heap st') !! l = stories (heap st) !! l)
        /\ stories (heap st') !! r = Some Mock.commented)
  /\ (exists r err st',
        UpdateStory 1%positive (Some Mock.comment) st = Some ((r, err), st')
        /\ tasks (heap st') = tasks (heap st)
        /\ stories (heap st) !! r = None
        /\ stories (heap st') !! 1%positive = Some Mock.renamed
        /\ (forall l, l <> r -> stories (heap st') !! l = stories (heap st) !! l)
        /\ stories (heap st') !! r = Some Mock.commented)
  /\ (exists err st', Delete 1%positive st = Some (err, st') /\ heap st' = heap st).
Proof.
  split; [reflexivity|]. split; [reflexivity|].
  exact (story_mutations_frame (Mock.state Mock.answers) 1%positive 1%positive
           (Some Mock.comment) (Mock.mkTask "41" "Launch") Mock.renamed
           eq_refl eq_refl).
Defined.

(** * Further properties *)

(** ** Decimal identifiers *)

Lemma to_int_proper (z : Z) :
  Z.to_int z <> Decimal.Pos Decimal.Nil /\ Z.to_int z <> Decimal.Neg Decimal.Nil.
Proof.
  destruct z as [|p|p]; simpl; split; try discriminate;
    intros [= E]; exact (DecimalPos.Unsigned.to_uint_nonnil p E).
Qed.

Lemma fmt_d_parse (z : Z) :
  option_map Z.of_int (NilZero.int_of_string (fmt_d z)) = Some z.
Proof.
  unfold fmt_d. destruct (to_int_proper z) as [P N].
  rewrite NilZero.isi by assumption. simpl. by rewrite DecimalZ.of_to.
Qed.

Lemma fmt_d_inj (a b : Z) : fmt_d a = fmt_d b -> a = b.
Proof.
  intros E. pose proof (fmt_d_parse a) as Pa. rewrite E, fmt_d_parse in Pa.
  by injection Pa.
Qed.

Lemma parse_int32_fmt_d (z : Z) :
  -2147483648 <= z <= 2147483647 -> parse_int32 (fmt_d z) = Some z.
Proof.
  intros R. unfold parse_int32.
  pose proof (fmt_d_parse z) as P.
  destruct (NilZero.int_of_string (fmt_d z)) as [d|]; [|discriminate P].
  injection P as ->.
  destruct (Z.leb_spec (-2147483648) z), (Z.leb_spec z 2147483647);
    simpl; try reflexivity; lia.
Qed.

Lemma append_inj_prefix (p a b : string) : p +:+ a = p +:+ b -> a = b.
Proof. induction p as [|c p IH]; simpl; [done|]. intros [= E]. auto. Qed.

(** ** More on the walker *)

Section MoreWalker.
Context {T error : Type} `{!WorkspaceTransport T error}.

Lemma loop_explained fuel options :
  forall acc cursor (w : World T error) res err w',
    AllWorkspaces_loop fuel options acc (Some cursor) w = (Some (res, err), w') ->
    exists pages,
      walk options (transport w) cursor pages err (transport w')
      /\ res = yield acc pages err
      /\ (calls pages err <= fuel)%nat.
Proof.
  induction fuel as [|fuel IH]; intros acc cursor w res err w' E;
    [discriminate E|].
  rewrite loop_step, Workspaces_run in E. cbv zeta in E.
  destruct (get_Workspaces _ _ _ (transport w)) as [[[ws np] e] t1] eqn:G.
  cbn [fst snd] in E.
  destruct e as [e|]; [|destruct np as [next|]].
  - injection E as <- <- <-. exists []. split; [|split].
    + eapply walk_fail. exact G.
    + reflexivity.
    + simpl. lia.
  - apply IH in E. destruct E as (pages & W & R & C).
    cbn [transport] in W.
    exists (ws :: pages). split; [|split].
    + eapply walk_next; [exact G|exact W].
    + rewrite R. by destruct err.
    + destruct err; simpl in *; lia.
  - rewrite loop_done in E. injection E as <- <- <-.
    exists [ws]. split; [|split].
    + apply walk_last. exact G.
    + reflexivity.
    + simpl. lia.
Qed.

(** X1. Whatever [AllWorkspaces] returns is what the transport served to
    its walk: there are pages, each but the last answered with a cursor,
    then a last page with a nil cursor and the result is the slice of their
    items in order, or then a failure and the result is the nil slice with
    that error; the walk made one listing call per answer, within the fuel. *)
Theorem AllWorkspaces_explained fuel options (w : World T error) res err w' :
  AllWorkspaces fuel options w = (Some (res, err), w') ->
  exists pages,
    walk options (transport w) NextPage.zero pages err (transport w')
    /\ res = match err with
             | None => mk_slice (concat (map elements pages))
             | Some _ => nil_slice
             end
    /\ (calls pages err <= fuel)%nat
    /\ length (exchanges w') = (length (exchanges w) + calls pages err)%nat.
Proof.
  intros E. unfold AllWorkspaces in E.
  destruct (loop_explained _ _ _ _ _ _ _ _ E) as (pages & W & R & C).
  exists pages. split; [exact W|]. split; [|split; [exact C|]].
  - rewrite R. destruct err; [reflexivity|]. cbn [yield].
    by rewrite fold_append_non_nil.
  - destruct (loop_walk _ _ _ _ _ _ W fuel (mk_slice []) w eq_refl C)
      as (xs & E' & L).
    rewrite E in E'. injection E' as _ ->. cbn [exchanges].
    rewrite length_app. lia.
Qed.

(** X2. The loop has no bound of its own: in front of a transport that
    answers every listing with a cursor and no error, [AllWorkspaces] does
    not return whatever the fuel, and it has made one request per unit of
    fuel. *)
Theorem AllWorkspaces_never_returns fuel options (w : World T error) :
  (forall opts t, exists items next t',
      get_Workspaces "/workspaces" nil_slice opts t
      = ((items, Some next, None), t')) ->
  (AllWorkspaces fuel options w).1 = None
  /\ length (exchanges (AllWorkspaces fuel options w).2)
     = (length (exchanges w) + fuel)%nat.
Proof.
  intros Endless. unfold AllWorkspaces.
  generalize (mk_slice (@nil Workspace.t)) as acc.
  generalize NextPage.zero as cursor. revert w.
  induction fuel as [|fuel IH]; intros w cursor acc.
  - simpl. split; [reflexivity|lia].
  - rewrite loop_step, Workspaces_run. cbv zeta.
    destruct (Endless (pageOptions cursor :: options) (transport w))
      as (items & next & t' & G).
    rewrite G. cbn [fst snd].
    match goal with
    | |- context [AllWorkspaces_loop fuel options ?a (Some next) ?w1] =>
      destruct (IH w1 next a) as (R & L)
    end.
    split; [exact R|]. rewrite L. cbn [exchanges]. rewrite length_app.
    simpl. lia.
Qed.

End MoreWalker.

Lemma AllWorkspaces_never_returns_witness :
  (forall opts t, exists items next t',
      Endless.get_Workspaces "/workspaces" nil_slice opts t
      = ((items, Some next, None), t'))
  /\ (AllWorkspaces 25 [] Endless.client).1
     = @None (slice Workspace.t * option string)
  /\ length (exchanges (AllWorkspaces 25 [] Endless.client).2) = 25%nat.
Proof.
  assert (E : forall opts t, exists items next t',
             Endless.get_Workspaces "/workspaces" nil_slice opts t
             = ((items, Some next, None), t')).
  { intros opts t. eexists _, _, _. reflexivity. }
  split; [exact E|].
  exact (AllWorkspaces_never_returns 25 [] Endless.client E).
Defined.

Lemma AllWorkspaces_explained_witness :
  let r := AllWorkspaces 4 [] (Mock.client Mock.failing_third) in
  r.1 = Some (nil_slice, Some "503")
  /\ exists pages,
       walk [] Mock.failing_third NextPage.zero pages (Some "503") (transport r.2)
       /\ nil_slice = @nil_slice Workspace.t
       /\ (calls pages (Some "503") <= 4)%nat
       /\ length (exchanges r.2) = (0 + calls pages (Some "503"))%nat.
Proof.
  split; [reflexivity|].
  exact (AllWorkspaces_explained 4 [] (Mock.client Mock.failing_third)
           nil_slice (Some "503")
           (AllWorkspaces 4 [] (Mock.client Mock.failing_third)).2 eq_refl).
Defined.

(** ** More on [Expand] *)

Section MoreExpand.
Context {T error : Type} `{!WorkspaceTransport T error}.


(** X4. Workspaces with different IDs are fetched from different paths. *)
Theorem Expand_paths_distinct (w1 w2 : Workspace.t) (c1 c2 : World T error) x1 x2 :
  Workspace.ID w1 <> Workspace.ID w2 ->
  Workspace.expanded w1 = false ->
  Workspace.expanded w2 = false ->
  last (exchanges (Expand w1 c1).2) = Some x1 ->
  last (exchanges (Expand w2 c2).2) = Some x2 ->
  x_path x1 <> x_path x2.
Proof.
  intros Hne E1 E2.
  rewrite (Expand_unexpanded _ _ E1), (Expand_unexpanded _ _ E2).
  cbv zeta. cbn [snd exchanges]. rewrite !last_snoc.
  intros [= <-] [= <-]. cbn [x_path]. intros P.
  apply append_inj_prefix in P. by apply fmt_d_inj in P.
Qed.

End MoreExpand.

Lemma Expand_paths_distinct_witness :
  Workspace.ID (Workspace 7) <> Workspace.ID (Workspace 8)
  /\ x_path (mkExchange GET "/workspaces/7" None [] None (Some "timeout"))
     <> x_path (mkExchange GET "/workspaces/8" None [] None
                  (@None string)).
Proof.
  split; [discriminate|].
  exact (Expand_paths_distinct (Workspace 7) (Workspace 8)
           (Mock.client Mock.timeout) (Mock.client Mock.two_objects) _ _
           ltac:(discriminate) eq_refl eq_refl eq_refl eq_refl).
Defined.

(** ** More on the story methods *)

Section MoreStories.
Context {T error : Type} `{Resources} `{!StoryTransport T error}.




(** X7. The story [CreateComment] returns can be updated at once, also when
    the creation failed: [UpdateStory] on it does not panic, sends its PUT to
    [/stories/<ID>] with the ID the creation decoded (the empty ID when
    nothing was decoded), returns another location and leaves the created
    story as it is. *)
Theorem CreateComment_then_UpdateStory (st : State T error) (t : loc)
    body body' task :
  tasks (heap st) !! t = Some task ->
  let created :=
    (post_Story ("/tasks/" +:+ External.Task_ID task +:+ "/stories") body
       Story.zero (transport (world st))).1.1 in
  exists r e st1 u e' st2 x,
    CreateComment t body st = Some ((r, e), st1)
    /\ UpdateStory r body' st1 = Some ((u, e'), st2)
    /\ u <> r
    /\ stories (heap st2) !! r = Some created
    /\ last (exchanges (world st2)) = Some x
    /\ x_method x = PUT
    /\ x_path x = "/stories/" +:+ Story.ID created
    /\ x_body x = body'.
Proof.
  intros Ht created.
  rewrite (CreateComment_run _ _ _ _ Ht). cbv zeta.
  set (r := fresh (dom (stories (heap st)))).
  match goal with
  | |- context [Some ((r, ?e), ?s1)] => set (st1 := s1); set (e1 := e)
  end.
  assert (Hr : stories (heap st1) !! r = Some created).
  { subst st1. cbn [heap stories]. by rewrite lookup_insert_eq. }
  exists r, e1, st1.
  rewrite (UpdateStory_run _ _ _ _ Hr). cbv zeta.
  eexists _, _, _, _. split; [reflexivity|]. split; [reflexivity|].
  split; [|split; [|split]].
  - intros E. pose proof (fresh_story st1) as F. rewrite E, Hr in F.
    discriminate F.
  - cbn [heap stories]. rewrite lookup_insert_ne; [exact Hr|].
    intros E. pose proof (fresh_story st1) as F. rewrite E, Hr in F.
    discriminate F.
  - cbn [world exchanges]. apply last_snoc.
  - repeat split.
Qed.

(** X8. [Delete] keeps no record of the deletion: a second [Delete] on the
    same story sends the same DELETE again, and the memory is as before. *)
Theorem Delete_twice (st : State T error) (s : loc) this :
  stories (heap st) !! s = Some this ->
  let path := "/stories/" +:+ Story.ID this in
  exists e1 st1 e2 st2,
    Delete s st = Some (e1, st1)
    /\ Delete s st1 = Some (e2, st2)
    /\ heap st2 = heap st
    /\ exchanges (world st2)
       = exchanges (world st)
         ++ [mkExchange DELETE path None [] None e1;
             mkExchange DELETE path None [] None e2].
Proof.
  intros Hs path.
  rewrite (Delete_run _ _ _ Hs). cbv zeta.
  eexists _, _. 
  match goal with
  | |- context [Some (?e, ?s1) = Some _] => set (st1 := s1)
  end.
  assert (Hs1 : stories (heap st1) !! s = Some this) by exact Hs.
  rewrite (Delete_run _ _ _ Hs1). cbv zeta.
  eexists _, _. split; [reflexivity|]. split; [reflexivity|].
  split; [reflexivity|]. subst st1. cbn [world exchanges transport].
  by rewrite <- app_assoc.
Qed.

End MoreStories.



Lemma CreateComment_then_UpdateStory_witness :
  let st := Mock.state Mock.create_then_update in
  tasks (heap st) !! 1%positive = Some (Mock.mkTask "41" "Launch")
  /\ exists r e st1 u e' st2 x,
       CreateComment 1%positive (Some Mock.comment) st = Some ((r, e), st1)
       /\ UpdateStory r None st1 = Some ((u, e'), st2)
       /\ u <> r
       /\ stories (heap st2) !! r = Some Mock.commented
       /\ last (exchanges (world st2)) = Some x
       /\ x_method x = PUT
       /\ x_path x = "/stories/502"
       /\ x_body x = None.
Proof.
  split; [reflexivity|].
  exact (CreateComment_then_UpdateStory (Mock.state Mock.create_then_update)
           1%positive (Some Mock.comment) None (Mock.mkTask "41" "Launch")
           eq_refl).
Defined.

Lemma Delete_twice_witness :
  let st := Mock.state Mock.delete_twice in
  stories (heap st) !! 1%positive = Some Mock.renamed
  /\ exists e1 st1 e2 st2,
       Delete 1%positive st = Some (e1, st1)
       /\ Delete 1%positive st1 = Some (e2, st2)
       /\ heap st2 = heap st
       /\ exchanges (world st2)
          = [mkExchange DELETE "/stories/501" None [] None e1;
             mkExchange DELETE "/stories/501" None [] None e2].
Proof.
  split; [reflexivity|].
  exact (Delete_twice (Mock.state Mock.delete_twice) 1%positive Mock.renamed
           eq_refl).
Defined.

(** ** The whole story through JSON *)

Section FullRoundTrip.
Context `{Resources}.

Lemma wire_null (j : json) : wire j = JNull -> j = JNull.
Proof. destruct j; simpl; congruence. Qed.

Lemma collect_cons_inv (f : option members) rest ms :
  collect (f :: rest) = Some ms ->
  exists a b, f = Some a /\ collect rest = Some b /\ ms = a ++ b.
Proof.
  simpl. destruct f as [a|]; [|discriminate].
  destruct (collect rest) as [b|]; [|discriminate].
  intros [= <-]. eauto.
Qed.

(** *** One field through the loop *)

Lemma decode_field {A} (proj : Story.t -> A) (key : string)
    (dec : json -> A -> A) :
  (forall tag v s,
      proj (storeStory UnmarshalStory tag v s) = upd tag key v dec (proj s)) ->
  forall ms s st,
    Forall fits ms ->
    proj (decodeMembers (findField schemaStory)
            (fun f v s => (storeStory UnmarshalStory f.1 v s, checkStory f.2 v))
            (map (fun m => (m.1, wire m.2)) ms) s st).1
    = fold_left (fieldStep key dec) ms (proj s).
Proof.
  intros Hproj. induction ms as [|m ms IH]; intros s st F; [reflexivity|].
  inversion F as [|? ? (k & Hfind & Hcheck) F']; subst.
  cbn [map decodeMembers fst snd fold_left]. rewrite Hfind. cbv zeta.
  cbn [fst snd]. rewrite Hcheck.
  rewrite IH by exact F'. rewrite Hproj. reflexivity.
Qed.

Lemma decode_status ms :
  forall s,
    Forall fits ms ->
    (decodeMembers (findField schemaStory)
       (fun f v s => (storeStory UnmarshalStory f.1 v s, checkStory f.2 v))
       (map (fun m => (m.1, wire m.2)) ms) s Fine).2 = Fine.
Proof.
  induction ms as [|m ms IH]; intros s F; [reflexivity|].
  inversion F as [|? ? (k & Hfind & Hcheck) F']; subst.
  cbn [map decodeMembers fst snd]. rewrite Hfind. cbv zeta.
  cbn [fst snd]. rewrite Hcheck. cbn [worse]. by apply IH.
Qed.

(** *** The members of the other fields *)

Lemma step_other {A} key' key (dec : json -> A -> A) a rest acc :
  keyed key' a ->
  String.eqb key' key = false ->
  fold_left (fieldStep key dec) (a ++ rest) acc
  = fold_left (fieldStep key dec) rest acc.
Proof.
  intros K Hne. rewrite fold_left_app. f_equal.
  induction K as [|m a Hm _ IH] in acc |- *; [reflexivity|].
  cbn [fold_left]. unfold fieldStep at 2, upd. rewrite Hm, Hne. apply IH.
Qed.

(** *** The members of the field itself *)

Lemma step_string key x a rest :
  enc_string key x = Some a -> plain x ->
  fold_left (fieldStep key dec_string) (a ++ rest) ""
  = fold_left (fieldStep key dec_string) rest x.
Proof.
  unfold enc_string, plain, through. intros [= <-] P.
  destruct (String.eqb_spec x "") as [->|Hne]; [reflexivity|].
  cbn [app fold_left]. unfold fieldStep at 2, upd.
  rewrite String.eqb_refl. cbn [fst snd wire dec_string]. by rewrite P.
Qed.

Lemma step_bool key b a rest :
  enc_bool key b = Some a ->
  fold_left (fieldStep key dec_bool) (a ++ rest) false
  = fold_left (fieldStep key dec_bool) rest b.
Proof.
  unfold enc_bool. intros [= <-]. destruct b; [|reflexivity].
  cbn [app fold_left]. unfold fieldStep at 2, upd.
  by rewrite String.eqb_refl.
Qed.

Lemma step_int32 key z a rest :
  enc_int32 key z = Some a -> -2147483648 <= z <= 2147483647 ->
  fold_left (fieldStep key dec_int32) (a ++ rest) 0
  = fold_left (fieldStep key dec_int32) rest z.
Proof.
  unfold enc_int32. intros [= <-] R.
  destruct (Z.eqb_spec z 0) as [->|Hne]; [reflexivity|].
  cbn [app fold_left]. unfold fieldStep at 2, upd.
  rewrite String.eqb_refl. cbn [fst snd wire dec_int32].
  by rewrite parse_int32_fmt_d.
Qed.

Lemma step_float64 key f a rest :
  enc_float64 key f = Some a -> exact f ->
  fold_left (fieldStep key dec_float64) (a ++ rest) External.float64_zero
  = fold_left (fieldStep key dec_float64) rest f.
Proof.
  unfold enc_float64. intros E [Hz Hp].
  destruct (External.float64_isEmpty f).
  - injection E as <-. by rewrite Hz.
  - destruct (External.float64_format f) as [literal|]; [|discriminate E].
    injection E as <-. cbn [app fold_left]. unfold fieldStep at 2, upd.
    rewrite String.eqb_refl. cbn [fst snd wire dec_float64].
    by rewrite (Hp literal eq_refl).
Qed.

Lemma dec_ptr_survives {A} `{!JSONCodec A} (a : A) j cur :
  survives (Some a) -> MarshalJSON a = Some j ->
  dec_ptr (wire j) cur = Some a /\ check_ptr (A := A) (wire j) = Fine.
Proof.
  intros S E. destruct (S j E) as [Hnull Hdec].
  unfold dec_ptr, check_ptr. rewrite Hdec.
  destruct (wire j) eqn:W; try (split; reflexivity).
  by apply wire_null in W.
Qed.

Lemma step_ptr {A} `{!JSONCodec A} key (p : option A) a rest :
  enc_ptr MarshalJSON key p = Some a -> survives p ->
  fold_left (fieldStep key dec_ptr) (a ++ rest) None
  = fold_left (fieldStep key dec_ptr) rest p.
Proof.
  unfold enc_ptr. intros E S. destruct p as [x|].
  - destruct (MarshalJSON x) as [j|] eqn:Ej; [|discriminate E].
    injection E as <-. cbn [app fold_left]. unfold fieldStep at 2, upd.
    rewrite String.eqb_refl. cbn [fst snd].
    by destruct (dec_ptr_survives x j None S Ej) as [-> _].
  - by injection E as <-.
Qed.

Lemma elements_survive {A} `{!JSONCodec A} (l : list (option A)) :
  forall js,
    enc_elements MarshalJSON l = Some js ->
    Forall survives l ->
    map (fun item => dec_ptr item None) (map wire js) = l
    /\ forall st, check_elements (A := A) (map wire js) st = st.
Proof.
  induction l as [|p l IH]; intros js E F.
  - injection E as <-. split; [reflexivity|]. intros st. reflexivity.
  - inversion F as [|? ? Sp Sl]; subst. cbn [enc_elements] in E.
    destruct p as [x|].
    + destruct (MarshalJSON x) as [j|] eqn:Ej; [|discriminate E].
      destruct (enc_elements MarshalJSON l) as [js'|]; [|discriminate E].
      injection E as <-. destruct (IH js' eq_refl Sl) as [Hl Hc].
      destruct (dec_ptr_survives x j None Sp Ej) as [Hd Hk].
      cbn [map check_elements]. rewrite Hd, Hl, Hk. split; [reflexivity|].
      intros st. rewrite Hc. by destruct st.
    + destruct (enc_elements MarshalJSON l) as [js'|]; [|discriminate E].
      injection E as <-. destruct (IH js' eq_refl Sl) as [Hl Hc].
      cbn [map wire check_elements dec_ptr check_ptr]. rewrite Hl.
      split; [reflexivity|]. intros st. rewrite Hc. by destruct st.
Qed.

Lemma step_slice {A} `{!JSONCodec A} key (s : slice (option A)) a rest :
  enc_slice MarshalJSON key s = Some a -> listed s ->
  fold_left (fieldStep key dec_slice) (a ++ rest) nil_slice
  = fold_left (fieldStep key dec_slice) rest s.
Proof.
  unfold enc_slice. intros E [Hne F].
  destruct s as [|l]; [by injection E as <-|].
  cbn [elements] in E, F. destruct l as [|p l]; [done|].
  destruct (enc_elements MarshalJSON (p :: l)) as [js|] eqn:Ej;
    [|discriminate E].
  injection E as <-. cbn [app fold_left]. unfold fieldStep at 2, upd.
  rewrite String.eqb_refl. cbn [fst snd wire dec_slice].
  change ((fix map (l0 : list json) : list json :=
             match l0 with [] => [] | a :: l1 => wire a :: map l1 end) js)
    with (map wire js).
  by destruct (elements_survive (p :: l) js Ej F) as [-> _].
Qed.

Lemma check_time v st dt :
  check dt st KTime v = check_ptr (A := External.Time) v.
Proof. by destruct v. Qed.

Lemma check_date v st dt :
  check dt st KDate v = check_ptr (A := External.Date) v.
Proof. by destruct v. Qed.

Lemma MarshalDates_object d j : MarshalDates d = Some j -> exists ms, j = JObj ms.
Proof.
  unfold MarshalDates, object. destruct (collect _) as [ms|]; [|discriminate].
  intros [= <-]. eauto.
Qed.

Lemma dates_round_trip (d : Dates.t) j :
  dated (Some d) -> MarshalDates d = Some j ->
  UnmarshalDates (wire j) Dates.zero = (d, Fine).
Proof.
  destruct d as [on at_ start]. intros (Son & Sat & Sstart) E.
  cbn [Dates.DueOn Dates.DueAt Dates.StartOn] in *.
  unfold MarshalDates, object in E.
  cbn [Dates.DueOn Dates.DueAt Dates.StartOn collect enc_ptr] in E.
  destruct on as [on|], at_ as [at_|], start as [start|];
    unfold enc_ptr in E;
    repeat match type of E with
           | context [MarshalJSON ?x] =>
             let j := fresh "j" in
             let Ej := fresh "Ej" in
             destruct (MarshalJSON x) as [j|] eqn:Ej;
               [cbn iota beta in E|discriminate E]
           end;
    cbn [app] in E; injection E as <-;
    cbn [wire map UnmarshalDates decodeMembers fst snd];
    repeat match goal with
           | Ej : MarshalJSON ?x = Some ?j, S : survives (Some ?x) |- _ =>
             let Hd := fresh "Hd" in
             let Hk := fresh "Hk" in
             pose proof (fun cur => proj1 (dec_ptr_survives x j cur S Ej)) as Hd;
             pose proof (proj2 (dec_ptr_survives x j None S Ej)) as Hk;
             clear Ej
           end;
    cbn [findField schemaDates find fst snd String.eqb Ascii.eqb Bool.eqb];
    cbv zeta;
    unfold storeDates, upd;
    cbn [fst snd String.eqb Ascii.eqb Bool.eqb Dates.DueOn Dates.DueAt
         Dates.StartOn Dates.zero];
    rewrite ?check_time, ?check_date, ?Hk, ?Hk0, ?Hk1, ?Hd, ?Hd0, ?Hd1;
    cbn [worse]; try reflexivity.
Qed.

Lemma step_dates key (p : option Dates.t) a rest :
  enc_ptr MarshalDates key p = Some a -> dated p ->
  fold_left (fieldStep key (dec_struct UnmarshalDates Dates.zero)) (a ++ rest) None
  = fold_left (fieldStep key (dec_struct UnmarshalDates Dates.zero)) rest p.
Proof.
  unfold enc_ptr. intros E S. destruct p as [d|]; [|by injection E as <-].
  destruct (MarshalDates d) as [j|] eqn:Ej; [|discriminate E].
  injection E as <-. cbn [app fold_left]. unfold fieldStep at 2, upd.
  rewrite String.eqb_refl. cbn [fst snd]. unfold dec_struct.
  change (default Dates.zero None) with Dates.zero.
  rewrite (dates_round_trip d j S Ej).
  destruct (MarshalDates_object d j Ej) as (ms & ->). reflexivity.
Qed.

Lemma step_story key (p : option Story.t) a rest :
  enc_ptr MarshalStory key p = Some a ->
  (forall liked j, p = Some liked -> MarshalStory liked = Some j ->
                   UnmarshalStory (wire j) Story.zero = (liked, Fine)) ->
  fold_left (fieldStep key (dec_struct UnmarshalStory Story.zero)) (a ++ rest) None
  = fold_left (fieldStep key (dec_struct UnmarshalStory Story.zero)) rest p.
Proof.
  unfold enc_ptr. intros E IH. destruct p as [s|]; [|by injection E as <-].
  destruct (MarshalStory s) as [j|] eqn:Ej; [|discriminate E].
  injection E as <-. cbn [app fold_left]. unfold fieldStep at 2, upd.
  rewrite String.eqb_refl. cbn [fst snd]. unfold dec_struct.
  change (default Story.zero None) with Story.zero.
  rewrite (IH s j eq_refl Ej).
  destruct (MarshalStory_object s j Ej) as (ms & ->). reflexivity.
Qed.

(** *** Every member fits its field *)

Lemma fits_string key x a :
  enc_string key x = Some a ->
  findField schemaStory key = Some (key, KString) -> Forall fits a.
Proof.
  unfold enc_string. intros [= <-] Hf.
  destruct (String.eqb x ""); repeat constructor. by exists KString.
Qed.

Lemma fits_bool key b a :
  enc_bool key b = Some a ->
  findField schemaStory key = Some (key, KBool) -> Forall fits a.
Proof.
  unfold enc_bool. intros [= <-] Hf.
  destruct b; repeat constructor. by exists KBool.
Qed.

Lemma fits_int32 key z a :
  enc_int32 key z = Some a -> -2147483648 <= z <= 2147483647 ->
  findField schemaStory key = Some (key, KInt32) -> Forall fits a.
Proof.
  unfold enc_int32. intros [= <-] R Hf.
  destruct (Z.eqb z 0); repeat constructor. exists KInt32.
  split; [exact Hf|]. cbn [snd wire]. unfold checkStory, check.
  by rewrite parse_int32_fmt_d.
Qed.

Lemma fits_float64 key f a :
  enc_float64 key f = Some a -> exact f ->
  findField schemaStory key = Some (key, KFloat64) -> Forall fits a.
Proof.
  unfold enc_float64. intros E [_ Hp] Hf.
  destruct (External.float64_isEmpty f); [injection E as <-; constructor|].
  destruct (External.float64_format f) as [literal|]; [|discriminate E].
  injection E as <-. repeat constructor. exists KFloat64.
  split; [exact Hf|]. cbn [snd wire]. unfold checkStory, check.
  by rewrite (Hp literal eq_refl).
Qed.

Lemma fits_ptr {A} `{!JSONCodec A} (k : kind) key (p : option A) a :
  (forall v, checkStory k v = check_ptr (A := A) v) ->
  enc_ptr MarshalJSON key p = Some a -> survives p ->
  findField schemaStory key = Some (key, k) -> Forall fits a.
Proof.
  unfold enc_ptr. intros Hk E S Hf.
  destruct p as [x|]; [|injection E as <-; constructor].
  destruct (MarshalJSON x) as [j|] eqn:Ej; [|discriminate E].
  injection E as <-. repeat constructor. exists k.
  split; [exact Hf|]. cbn [snd]. rewrite Hk.
  by destruct (dec_ptr_survives x j None S Ej) as [_ ->].
Qed.

Lemma fits_users key (s : slice (option External.User)) a :
  enc_slice MarshalJSON key s = Some a -> listed s ->
  findField schemaStory key = Some (key, KUsers) -> Forall fits a.
Proof.
  unfold enc_slice. intros E [_ F] Hf.
  destruct (elements s) as [|p l] eqn:El; [injection E as <-; constructor|].
  destruct (enc_elements MarshalJSON (p :: l)) as [js|] eqn:Ej;
    [|discriminate E].
  injection E as <-. repeat constructor. exists KUsers.
  split; [exact Hf|]. cbn [snd wire].
  change ((fix map (l0 : list json) : list json :=
             match l0 with [] => [] | a :: l1 => wire a :: map l1 end) js)
    with (map wire js).
  unfold checkStory, check.
  by destruct (elements_survive (p :: l) js Ej F) as [_ ->].
Qed.

Lemma fits_dates key (p : option Dates.t) a :
  enc_ptr MarshalDates key p = Some a -> dated p ->
  findField schemaStory key = Some (key, KDates) -> Forall fits a.
Proof.
  unfold enc_ptr. intros E S Hf.
  destruct p as [d|]; [|injection E as <-; constructor].
  destruct (MarshalDates d) as [j|] eqn:Ej; [|discriminate E].
  injection E as <-. repeat constructor. exists KDates.
  split; [exact Hf|]. cbn [snd].
  pose proof (dates_round_trip d j S Ej) as R.
  destruct (MarshalDates_object d j Ej) as (ms & ->).
  unfold checkStory, check. cbn [wire] in R |- *. by rewrite R.
Qed.

Lemma fits_story key (p : option Story.t) a :
  enc_ptr MarshalStory key p = Some a ->
  (forall liked j, p = Some liked -> MarshalStory liked = Some j ->
                   UnmarshalStory (wire j) Story.zero = (liked, Fine)) ->
  findField schemaStory key = Some (key, KStory) -> Forall fits a.
Proof.
  unfold enc_ptr. intros E IH Hf.
  destruct p as [s|]; [|injection E as <-; constructor].
  destruct (MarshalStory s) as [j|] eqn:Ej; [|discriminate E].
  injection E as <-. repeat constructor. exists KStory.
  split; [exact Hf|]. cbn [snd].
  pose proof (IH s j eq_refl Ej) as R.
  destruct (MarshalStory_object s j Ej) as (ms & ->).
  unfold checkStory, check. cbn [wire] in R |- *. by rewrite R.
Qed.

End FullRoundTrip.

Section Assembly.
Context `{Resources}.

Lemma enc_float64_keyed key f a : enc_float64 key f = Some a -> keyed key a.
Proof.
  unfold enc_float64. destruct (External.float64_isEmpty f);
    [|destruct (External.float64_format f)]; intros [= <-]; repeat constructor.
Qed.

Lemma wire_object (ms : members) :
  wire (JObj ms) = JObj (map (fun m => (m.1, wire m.2)) ms).
Proof. reflexivity. Qed.

Lemma UnmarshalStory_object (ms : members) (s : Story.t) :
  UnmarshalStory (JObj ms) s
  = decodeMembers (findField schemaStory)
      (fun f v s => (storeStory UnmarshalStory f.1 v s, checkStory f.2 v))
      ms s Fine.
Proof. reflexivity. Qed.

(** Two unions, two stories with the same fields are the same. *)
Lemma StorySubtypeFields_ext (r s : StorySubtypeFields.t Story.t) :
  StorySubtypeFields.IsEdited r = StorySubtypeFields.IsEdited s ->
  StorySubtypeFields.NewDates r = StorySubtypeFields.NewDates s ->
  StorySubtypeFields.OldDates r = StorySubtypeFields.OldDates s ->
  StorySubtypeFields.OldName r = StorySubtypeFields.OldName s ->
  StorySubtypeFields.NewName r = StorySubtypeFields.NewName s ->
  StorySubtypeFields.OldResourceSubtype r = StorySubtypeFields.OldResourceSubtype s ->
  StorySubtypeFields.NewResourceSubtype r = StorySubtypeFields.NewResourceSubtype s ->
  StorySubtypeFields.Story r = StorySubtypeFields.Story s ->
  StorySubtypeFields.Attachment r = StorySubtypeFields.Attachment s ->
  StorySubtypeFields.Assignee r = StorySubtypeFields.Assignee s ->
  StorySubtypeFields.Follower r = StorySubtypeFields.Follower s ->
  StorySubtypeFields.OldSection r = StorySubtypeFields.OldSection s ->
  StorySubtypeFields.NewSection r = StorySubtypeFields.NewSection s ->
  StorySubtypeFields.Task r = StorySubtypeFields.Task s ->
  StorySubtypeFields.Project r = StorySubtypeFields.Project s ->
  StorySubtypeFields.Tag r = StorySubtypeFields.Tag s ->
  StorySubtypeFields.OldTextValue r = StorySubtypeFields.OldTextValue s ->
  StorySubtypeFields.NewTextValue r = StorySubtypeFields.NewTextValue s ->
  StorySubtypeFields.OldNumberValue r = StorySubtypeFields.OldNumberValue s ->
  StorySubtypeFields.NewNumberValue r = StorySubtypeFields.NewNumberValue s ->
  StorySubtypeFields.OldEnumValue r = StorySubtypeFields.OldEnumValue s ->
  StorySubtypeFields.NewEnumValue r = StorySubtypeFields.NewEnumValue s ->
  StorySubtypeFields.DuplicateOf r = StorySubtypeFields.DuplicateOf s ->
  StorySubtypeFields.DuplicatedFrom r = StorySubtypeFields.DuplicatedFrom s ->
  StorySubtypeFields.Dependency r = StorySubtypeFields.Dependency s ->
  r = s.
Proof. destruct r, s. cbn. intros. by subst. Qed.

Lemma Story_ext (r s : Story.t) :
  Story.ID r = Story.ID s ->
  StoryBase.Text (Story.StoryBase r) = StoryBase.Text (Story.StoryBase s) ->
  StoryBase.HTMLText (Story.StoryBase r) = StoryBase.HTMLText (Story.StoryBase s) ->
  StoryBase.IsPinned (Story.StoryBase r) = StoryBase.IsPinned (Story.StoryBase s) ->
  Story.CreatedAt r = Story.CreatedAt s ->
  Story.Liked r = Story.Liked s ->
  Story.Likes r = Story.Likes s ->
  Story.NumLikes r = Story.NumLikes s ->
  Story.CreatedBy r = Story.CreatedBy s ->
  Story.Target r = Story.Target s ->
  Story.Source r = Story.Source s ->
  Story.ResourceSubtype r = Story.ResourceSubtype s ->
  Story.StorySubtypeFields r = Story.StorySubtypeFields s ->
  r = s.
Proof.
  destruct r as [? [? ? ?] ? ? ? ? ? ? ? ? ?], s as [? [? ? ?] ? ? ? ? ? ? ? ? ?].
  cbn. intros. by subst.
Qed.

(** The members of one encoder are processed: by its own field, or passed
    over by another. *)
Ltac pass_over :=
  match goal with
  | K : keyed ?k ?a
    |- fold_left (fieldStep ?key ?dec) (?a ++ ?rest) ?acc = _ =>
    rewrite (step_other k key dec a rest acc K eq_refl)
  end.

Ltac take_in :=
  first
    [ erewrite step_string by eassumption
    | erewrite step_bool by eassumption
    | erewrite step_int32 by eassumption
    | erewrite step_float64 by eassumption
    | erewrite (step_ptr (A := External.Time)) by eassumption
    | erewrite (step_ptr (A := External.User)) by eassumption
    | erewrite (step_ptr (A := External.Task)) by eassumption
    | erewrite (step_ptr (A := External.Attachment)) by eassumption
    | erewrite (step_ptr (A := External.Section_)) by eassumption
    | erewrite (step_ptr (A := External.Project)) by eassumption
    | erewrite (step_ptr (A := External.Tag)) by eassumption
    | erewrite (step_ptr (A := External.EnumValue)) by eassumption
    | erewrite (step_slice (A := External.User)) by eassumption
    | erewrite step_dates by eassumption
    | erewrite step_story by eassumption ].

Ltac through_members := repeat first [pass_over | take_in]; reflexivity.

Ltac field proj key dec :=
  rewrite (decode_field proj key dec (fun _ _ _ => eq_refl)) by assumption;
  cbn [Story.zero StoryBase.zero StorySubtypeFields.zero
       Story.StorySubtypeFields Story.StoryBase Story.ID
       Story.CreatedAt Story.Liked Story.Likes Story.NumLikes Story.CreatedBy
       Story.Target Story.Source Story.ResourceSubtype
       StoryBase.Text StoryBase.HTMLText StoryBase.IsPinned
       StorySubtypeFields.IsEdited StorySubtypeFields.NewDates
       StorySubtypeFields.OldDates StorySubtypeFields.OldName
       StorySubtypeFields.NewName StorySubtypeFields.OldResourceSubtype
       StorySubtypeFields.NewResourceSubtype StorySubtypeFields.Story
       StorySubtypeFields.Attachment StorySubtypeFields.Assignee
       StorySubtypeFields.Follower StorySubtypeFields.OldSection
       StorySubtypeFields.NewSection StorySubtypeFields.Task
       StorySubtypeFields.Project StorySubtypeFields.Tag
       StorySubtypeFields.OldTextValue StorySubtypeFields.NewTextValue
       StorySubtypeFields.OldNumberValue StorySubtypeFields.NewNumberValue
       StorySubtypeFields.OldEnumValue StorySubtypeFields.NewEnumValue
       StorySubtypeFields.DuplicateOf StorySubtypeFields.DuplicatedFrom
       StorySubtypeFields.Dependency];
  through_members.

Ltac note_keys :=
  repeat match goal with
         | E : enc_string ?k _ = Some ?a |- _ =>
           lazymatch goal with
           | _ : keyed k a |- _ => fail
           | _ => pose proof (enc_string_keyed _ _ _ E)
           end
         | E : enc_bool ?k _ = Some ?a |- _ =>
           lazymatch goal with
           | _ : keyed k a |- _ => fail
           | _ => pose proof (enc_bool_keyed _ _ _ E)
           end
         | E : enc_int32 ?k _ = Some ?a |- _ =>
           lazymatch goal with
           | _ : keyed k a |- _ => fail
           | _ => pose proof (enc_int32_keyed _ _ _ E)
           end
         | E : enc_float64 ?k _ = Some ?a |- _ =>
           lazymatch goal with
           | _ : keyed k a |- _ => fail
           | _ => pose proof (enc_float64_keyed _ _ _ E)
           end
         | E : enc_ptr _ ?k _ = Some ?a |- _ =>
           lazymatch goal with
           | _ : keyed k a |- _ => fail
           | _ => pose proof (enc_ptr_keyed _ _ _ _ E)
           end
         | E : enc_slice _ ?k _ = Some ?a |- _ =>
           lazymatch goal with
           | _ : keyed k a |- _ => fail
           | _ => pose proof (enc_slice_keyed _ _ _ _ E)
           end
         end.

Ltac all_fit :=
  repeat (apply Forall_app; split); try apply List.Forall_nil;
  first
    [ eapply fits_string; [eassumption|reflexivity]
    | eapply fits_bool; [eassumption|reflexivity]
    | eapply fits_int32; [eassumption|eassumption|reflexivity]
    | eapply fits_float64; [eassumption|eassumption|reflexivity]
    | eapply fits_users; [eassumption|eassumption|reflexivity]
    | eapply fits_dates; [eassumption|eassumption|reflexivity]
    | eapply fits_story; [eassumption|eassumption|reflexivity]
    | eapply (fits_ptr (A := External.Time) KTime); [by intros []|eassumption|eassumption|reflexivity]
    | eapply (fits_ptr (A := External.Date) KDate); [by intros []|eassumption|eassumption|reflexivity]
    | eapply (fits_ptr (A := External.User) KUser); [by intros []|eassumption|eassumption|reflexivity]
    | eapply (fits_ptr (A := External.Attachment) KAttachment); [by intros []|eassumption|eassumption|reflexivity]
    | eapply (fits_ptr (A := External.Section_) KSection); [by intros []|eassumption|eassumption|reflexivity]
    | eapply (fits_ptr (A := External.Task) KTask); [by intros []|eassumption|eassumption|reflexivity]
    | eapply (fits_ptr (A := External.Project) KProject); [by intros []|eassumption|eassumption|reflexivity]
    | eapply (fits_ptr (A := External.Tag) KTag); [by intros []|eassumption|eassumption|reflexivity]
    | eapply (fits_ptr (A := External.EnumValue) KEnumValue); [by intros []|eassumption|eassumption|reflexivity] ].

Lemma round_trip_at_depth (n : nat) :
  forall (s : Story.t) j,
    (depth s <= n)%nat -> faithful s -> MarshalStory s = Some j ->
    UnmarshalStory (wire j) Story.zero = (s, Fine).
Proof.
  induction n as [n IH] using lt_wf_ind. intros s j Hd Hf E.
  assert (Nested : forall liked j',
             StorySubtypeFields.Story (Story.StorySubtypeFields s) = Some liked ->
             MarshalStory liked = Some j' ->
             UnmarshalStory (wire j') Story.zero = (liked, Fine)).
  { intros liked j' Hl Ej'.
    destruct s as [? ? ? ? ? ? ? ? ? ? sf]. cbn [Story.StorySubtypeFields] in Hl.
    cbn [depth faithful Story.StorySubtypeFields] in Hd, Hf. rewrite Hl in Hd, Hf.
    destruct n as [|n]; [lia|].
    apply (IH n (Nat.lt_succ_diag_r n) liked j'); [lia| |exact Ej'].
    tauto. }
  destruct s as [id [text html pinned] created liked likes num by_ target source
                 subtype [edited nd od on_ nn ors nrs story att ass fol os ns
                          task proj tag otv ntv onv nnv oev nev dof dfrom dep]].
  cbn [faithful Story.StorySubtypeFields Story.StoryBase Story.ID
       Story.CreatedAt Story.Liked Story.Likes Story.NumLikes Story.CreatedBy
       Story.Target Story.Source Story.ResourceSubtype
       StoryBase.Text StoryBase.HTMLText StoryBase.IsPinned
       StorySubtypeFields.IsEdited StorySubtypeFields.NewDates StorySubtypeFields.OldDates StorySubtypeFields.OldName StorySubtypeFields.NewName StorySubtypeFields.OldResourceSubtype StorySubtypeFields.NewResourceSubtype StorySubtypeFields.Story StorySubtypeFields.Attachment StorySubtypeFields.Assignee StorySubtypeFields.Follower StorySubtypeFields.OldSection StorySubtypeFields.NewSection StorySubtypeFields.Task StorySubtypeFields.Project StorySubtypeFields.Tag StorySubtypeFields.OldTextValue StorySubtypeFields.NewTextValue StorySubtypeFields.OldNumberValue StorySubtypeFields.NewNumberValue StorySubtypeFields.OldEnumValue StorySubtypeFields.NewEnumValue StorySubtypeFields.DuplicateOf StorySubtypeFields.DuplicatedFrom StorySubtypeFields.Dependency] in Hf, Nested.
  clear Hd IH.
  assert (Nested' : forall liked j', story = Some liked ->
             MarshalStory liked = Some j' ->
             UnmarshalStory (wire j') Story.zero = (liked, Fine)) by exact Nested.
  clear Nested.
  repeat match type of Hf with _ /\ _ => destruct Hf as [? Hf] end.
  cbn [MarshalStory Story.StorySubtypeFields Story.StoryBase Story.ID
       Story.CreatedAt Story.Liked Story.Likes Story.NumLikes Story.CreatedBy
       Story.Target Story.Source Story.ResourceSubtype
       StoryBase.Text StoryBase.HTMLText StoryBase.IsPinned
       StorySubtypeFields.IsEdited StorySubtypeFields.NewDates StorySubtypeFields.OldDates StorySubtypeFields.OldName StorySubtypeFields.NewName StorySubtypeFields.OldResourceSubtype StorySubtypeFields.NewResourceSubtype StorySubtypeFields.Story StorySubtypeFields.Attachment StorySubtypeFields.Assignee StorySubtypeFields.Follower StorySubtypeFields.OldSection StorySubtypeFields.NewSection StorySubtypeFields.Task StorySubtypeFields.Project StorySubtypeFields.Tag StorySubtypeFields.OldTextValue StorySubtypeFields.NewTextValue StorySubtypeFields.OldNumberValue StorySubtypeFields.NewNumberValue StorySubtypeFields.OldEnumValue StorySubtypeFields.NewEnumValue StorySubtypeFields.DuplicateOf StorySubtypeFields.DuplicatedFrom StorySubtypeFields.Dependency] in E.
  unfold object in E.
  match type of E with
  | match collect ?fs with _ => _ end = _ =>
    destruct (collect fs) as [ms|] eqn:C; [|discriminate E]
  end.
  injection E as <-.
  repeat (apply collect_cons_inv in C; destruct C as (? & ? & ? & C & ->)).
  injection C as <-.
  note_keys.
  rewrite wire_object, UnmarshalStory_object.
  match goal with
  | |- decodeMembers _ _ (map _ ?ms) _ _ = _ =>
    assert (F : Forall fits ms) by all_fit
  end.
  match goal with
  | |- ?lhs = _ => rewrite (surjective_pairing lhs)
  end.
  f_equal; [|by apply decode_status].
  apply Story_ext; [.. | apply StorySubtypeFields_ext];
    cbn [Story.StorySubtypeFields Story.StoryBase Story.ID
       Story.CreatedAt Story.Liked Story.Likes Story.NumLikes Story.CreatedBy
       Story.Target Story.Source Story.ResourceSubtype
       StoryBase.Text StoryBase.HTMLText StoryBase.IsPinned
       StorySubtypeFields.IsEdited StorySubtypeFields.NewDates StorySubtypeFields.OldDates StorySubtypeFields.OldName StorySubtypeFields.NewName StorySubtypeFields.OldResourceSubtype StorySubtypeFields.NewResourceSubtype StorySubtypeFields.Story StorySubtypeFields.Attachment StorySubtypeFields.Assignee StorySubtypeFields.Follower StorySubtypeFields.OldSection StorySubtypeFields.NewSection StorySubtypeFields.Task StorySubtypeFields.Project StorySubtypeFields.Tag StorySubtypeFields.OldTextValue StorySubtypeFields.NewTextValue StorySubtypeFields.OldNumberValue StorySubtypeFields.NewNumberValue StorySubtypeFields.OldEnumValue StorySubtypeFields.NewEnumValue StorySubtypeFields.DuplicateOf StorySubtypeFields.DuplicatedFrom StorySubtypeFields.Dependency].
  all: [>
    field (fun s : Story.t => Story.ID s) "gid" dec_string
  | field (fun s : Story.t => StoryBase.Text (Story.StoryBase s)) "text" dec_string
  | field (fun s : Story.t => StoryBase.HTMLText (Story.StoryBase s)) "html_text" dec_string
  | field (fun s : Story.t => StoryBase.IsPinned (Story.StoryBase s)) "is_pinned" dec_bool
  | field (fun s : Story.t => Story.CreatedAt s) "created_at" (dec_ptr (A := External.Time))
  | field (fun s : Story.t => Story.Liked s) "liked" dec_bool
  | field (fun s : Story.t => Story.Likes s) "likes" (dec_slice (A := External.User))
  | field (fun s : Story.t => Story.NumLikes s) "num_likes" dec_int32
  | field (fun s : Story.t => Story.CreatedBy s) "created_by" (dec_ptr (A := External.User))
  | field (fun s : Story.t => Story.Target s) "target" (dec_ptr (A := External.Task))
  | field (fun s : Story.t => Story.Source s) "source" dec_string
  | field (fun s : Story.t => Story.ResourceSubtype s) "resource_subtype" dec_string
  | field (fun s : Story.t => StorySubtypeFields.IsEdited (Story.StorySubtypeFields s))
      "is_edited" dec_bool
  | field (fun s : Story.t => StorySubtypeFields.NewDates (Story.StorySubtypeFields s))
      "new_dates" (dec_struct UnmarshalDates Dates.zero)
  | field (fun s : Story.t => StorySubtypeFields.OldDates (Story.StorySubtypeFields s))
      "old_dates" (dec_struct UnmarshalDates Dates.zero)
  | field (fun s : Story.t => StorySubtypeFields.OldName (Story.StorySubtypeFields s))
      "old_name" dec_string
  | field (fun s : Story.t => StorySubtypeFields.NewName (Story.StorySubtypeFields s))
      "new_name" dec_string
  | field (fun s : Story.t => StorySubtypeFields.OldResourceSubtype (Story.StorySubtypeFields s))
      "old_resource_subtype" dec_string
  | field (fun s : Story.t => StorySubtypeFields.NewResourceSubtype (Story.StorySubtypeFields s))
      "new_resource_subtype" dec_string
  | field (fun s : Story.t => StorySubtypeFields.Story (Story.StorySubtypeFields s))
      "story" (dec_struct UnmarshalStory Story.zero)
  | field (fun s : Story.t => StorySubtypeFields.Attachment (Story.StorySubtypeFields s))
      "attachment" (dec_ptr (A := External.Attachment))
  | field (fun s : Story.t => StorySubtypeFields.Assignee (Story.StorySubtypeFields s))
      "assignee" (dec_ptr (A := External.User))
  | field (fun s : Story.t => StorySubtypeFields.Follower (Story.StorySubtypeFields s))
      "follower" (dec_ptr (A := External.User))
  | field (fun s : Story.t => StorySubtypeFields.OldSection (Story.StorySubtypeFields s))
      "old_section" (dec_ptr (A := External.Section_))
  | field (fun s : Story.t => StorySubtypeFields.NewSection (Story.StorySubtypeFields s))
      "new_section" (dec_ptr (A := External.Section_))
  | field (fun s : Story.t => StorySubtypeFields.Task (Story.StorySubtypeFields s))
      "task" (dec_ptr (A := External.Task))
  | field (fun s : Story.t => StorySubtypeFields.Project (Story.StorySubtypeFields s))
      "project" (dec_ptr (A := External.Project))
  | field (fun s : Story.t => StorySubtypeFields.Tag (Story.StorySubtypeFields s))
      "tag" (dec_ptr (A := External.Tag))
  | field (fun s : Story.t => StorySubtypeFields.OldTextValue (Story.StorySubtypeFields s))
      "old_text_value" dec_string
  | field (fun s : Story.t => StorySubtypeFields.NewTextValue (Story.StorySubtypeFields s))
      "new_text_value" dec_string
  | field (fun s : Story.t => StorySubtypeFields.OldNumberValue (Story.StorySubtypeFields s))
      "old_number_value" dec_float64
  | field (fun s : Story.t => StorySubtypeFields.NewNumberValue (Story.StorySubtypeFields s))
      "new_number_value" dec_float64
  | field (fun s : Story.t => StorySubtypeFields.OldEnumValue (Story.StorySubtypeFields s))
      "old_enum_value" (dec_ptr (A := External.EnumValue))
  | field (fun s : Story.t => StorySubtypeFields.NewEnumValue (Story.StorySubtypeFields s))
      "new_enum_value" (dec_ptr (A := External.EnumValue))
  | field (fun s : Story.t => StorySubtypeFields.DuplicateOf (Story.StorySubtypeFields s))
      "duplicate_of" (dec_ptr (A := External.Task))
  | field (fun s : Story.t => StorySubtypeFields.DuplicatedFrom (Story.StorySubtypeFields s))
      "duplicated_from" (dec_ptr (A := External.Task))
  | field (fun s : Story.t => StorySubtypeFields.Dependency (Story.StorySubtypeFields s))
      "dependency" (dec_ptr (A := External.Task)) ].
Qed.

End Assembly.

Section RoundTripResults.
Context `{Resources}.

(** X9. A story comes back from its document as it was, with no decoding
    error, when its parts can: its strings are the text a document carries,
    its like count fits an [int32], its numbers read back from their
    literals, its slice of likes is nil or has elements, and the values
    behind its pointers come back through their own codecs, the stories and
    dates it points to included. *)
Theorem Story_round_trip (s : Story.t) j :
  faithful s -> MarshalStory s = Some j ->
  UnmarshalStory (wire j) Story.zero = (s, Fine).
Proof. intros F E. by apply (round_trip_at_depth (depth s)). Qed.

(** X10. [Dates] come back from their document, which is always an object,
    when the three values behind their pointers do. *)
Theorem Dates_round_trip (d : Dates.t) j :
  survives (Dates.DueOn d) -> survives (Dates.DueAt d) ->
  survives (Dates.StartOn d) ->
  MarshalDates d = Some j ->
  (exists ms, j = JObj ms)
  /\ UnmarshalDates (wire j) Dates.zero = (d, Fine).
Proof.
  intros S1 S2 S3 E. split; [by eapply MarshalDates_object|].
  apply dates_round_trip; [|exact E]. by repeat split.
Qed.

Lemma MarshalStory_keys_without_likes (s : Story.t) ms :
  elements (Story.Likes s) = [] ->
  MarshalStory s = Some (JObj ms) ->
  Forall (fun m => In m.1 tagsButLikes) ms.
Proof.
  intros Hl E. destruct s as [? ? ? ? likes ? ? ? ? ? ?].
  cbn [Story.Likes] in Hl.
  cbn [MarshalStory Story.Likes] in E. unfold object in E.
  match type of E with
  | match collect ?fs with _ => _ end = _ =>
    destruct (collect fs) as [ms'|] eqn:C; [|discriminate]
  end.
  injection E as ->.
  apply (collect_keys (fun k => In k tagsButLikes) _ _ C).
  repeat apply List.Forall_cons; try apply List.Forall_nil; intros a Ea;
    first
      [ eapply Forall_impl;
        [ first [ eapply enc_string_keyed; exact Ea
                | eapply enc_bool_keyed; exact Ea
                | eapply enc_int32_keyed; exact Ea
                | eapply enc_float64_keyed; exact Ea
                | eapply enc_ptr_keyed; exact Ea
                | eapply enc_slice_keyed; exact Ea ]
        | intros m ->; simpl; tauto ]
      | unfold enc_slice in Ea; rewrite Hl in Ea; injection Ea as <-;
        apply List.Forall_nil ].
Qed.

(** X11. A story without likes, its slice nil or empty, is encoded without
    a [likes] member, and decoding the document into a fresh [Story] gives
    the nil slice whatever else the story holds: an empty slice that is not
    nil does not survive the round trip. *)
Theorem Story_without_likes (s : Story.t) j :
  elements (Story.Likes s) = [] ->
  MarshalStory s = Some j ->
  Story.Likes (UnmarshalStory (wire j) Story.zero).1 = nil_slice.
Proof.
  intros Hl E.
  destruct (MarshalStory_object s j E) as (ms & ->).
  pose proof (MarshalStory_keys_without_likes s ms Hl E) as K.
  cbn [wire UnmarshalStory].
  apply (decodeMembers_invariant _ _
           (fun s => Story.Likes s = nil_slice)
           (fun key => In key tagsButLikes)).
  - intros key f v s0 Hin Ef P. revert f Ef.
    simpl in Hin.
    repeat (destruct Hin as [<-|Hin]); try contradiction;
      intros f [= <-]; exact P.
  - apply (wire_keys (fun key => In key tagsButLikes)). exact K.
  - reflexivity.
Qed.

End RoundTripResults.

Lemma liking_faithful : faithful Mock.liking.
Proof.
  assert (Names : forall s : string,
             @survives Mock.resources string Mock.name_codec (Some s)).
  { intros s j [= <-]. split; [discriminate|reflexivity]. }
  assert (Tasks : forall t : Mock.task,
             @survives Mock.resources Mock.task Mock.task_codec (Some t)).
  { intros [i n] j [= <-]. split; [discriminate|reflexivity]. }
  cbn [faithful Mock.liking Mock.commented Mock.due Mock.comment
       Story.StorySubtypeFields Story.StoryBase Story.ID
       Story.CreatedAt Story.Liked Story.Likes Story.NumLikes Story.CreatedBy
       Story.Target Story.Source Story.ResourceSubtype
       StoryBase.Text StoryBase.HTMLText StoryBase.IsPinned StoryBase.zero
       StorySubtypeFields.zero
       StorySubtypeFields.IsEdited StorySubtypeFields.NewDates
       StorySubtypeFields.OldDates StorySubtypeFields.OldName
       StorySubtypeFields.NewName StorySubtypeFields.OldResourceSubtype
       StorySubtypeFields.NewResourceSubtype StorySubtypeFields.Story
       StorySubtypeFields.Attachment StorySubtypeFields.Assignee
       StorySubtypeFields.Follower StorySubtypeFields.OldSection
       StorySubtypeFields.NewSection StorySubtypeFields.Task
       StorySubtypeFields.Project StorySubtypeFields.Tag
       StorySubtypeFields.OldTextValue StorySubtypeFields.NewTextValue
       StorySubtypeFields.OldNumberValue StorySubtypeFields.NewNumberValue
       StorySubtypeFields.OldEnumValue StorySubtypeFields.NewEnumValue
       StorySubtypeFields.DuplicateOf StorySubtypeFields.DuplicatedFrom
       StorySubtypeFields.Dependency].
  repeat match goal with
         | |- True => exact I
         | |- plain _ => reflexivity
         | |- survives None => exact I
         | |- survives (Some _) => first [apply Names | apply Tasks]
         | |- listed _ =>
           split; [discriminate|];
           cbn [elements];
           repeat (apply List.Forall_cons; [first [apply Names | exact I]|]);
           apply List.Forall_nil
         | |- dated None => exact I
         | |- dated (Some _) =>
           split; [|split]; first [apply Names | exact I]
         | |- exact _ =>
           split; [intros E; first [reflexivity | discriminate E]
                  |intros literal [= <-]; reflexivity]
         | |- (_ <= _)%Z => lia
         | |- _ /\ _ => split
         end.
Qed.

Lemma Story_round_trip_witness :
  faithful Mock.liking
  /\ exists j,
       MarshalStory Mock.liking = Some j
       /\ UnmarshalStory (wire j) Story.zero = (Mock.liking, Fine).
Proof.
  split; [exact liking_faithful|].
  eexists. split; [reflexivity|].
  exact (Story_round_trip Mock.liking _ liking_faithful eq_refl).
Defined.

Lemma Dates_round_trip_witness :
  exists j,
    MarshalDates Mock.due = Some j
    /\ (exists ms, j = JObj ms)
    /\ UnmarshalDates (wire j) Dates.zero = (Mock.due, Fine).
Proof.
  assert (Names : forall s : string,
             @survives Mock.resources string Mock.name_codec (Some s)).
  { intros s j [= <-]. split; [discriminate|reflexivity]. }
  eexists. split; [reflexivity|].
  exact (Dates_round_trip Mock.due _ (Names _) I (Names _) eq_refl).
Defined.

Lemma Story_without_likes_witness :
  Story.Likes Mock.unliked = mk_slice []
  /\ exists j,
       MarshalStory Mock.unliked = Some j
       /\ Story.Likes (UnmarshalStory (wire j) Story.zero).1 = nil_slice.
Proof.
  split; [reflexivity|]. eexists. split; [reflexivity|].
  exact (Story_without_likes Mock.unliked _ eq_refl eq_refl).
Defined.
